(** * Local Sensor API: a model of the two [sensor_api.py] services

    The repository holds two Flask applications that receive CO2,
    temperature and humidity telemetry over HTTP and keep it in
    PostgreSQL:

    - [src/local-sensor-api/sensor_api.py]: health check and three
      ingestion handlers;
    - [src/SCD4X/scd41-co2-monitor-local/local-sensor-api/sensor_api.py]:
      the same four handlers, permissive CORS, and four read handlers.

    Handlers are embedded as functions in a state-and-exception monad
    over a [world] (tables, connectivity, clock).  Python values that
    travel through JSON are the inductive type [json]; Python
    exceptions are values of [exn]; an exception that leaves a handler
    is the [Raise] result of the handler (Flask then answers with its
    own generic error page). *)

From Stdlib Require Import List ZArith QArith Qreduction String Ascii Bool Lia.
From Stdlib Require Import Sorted Permutation.
Import ListNotations.

Set Warnings "-register-all".

Local Open Scope string_scope.
Local Open Scope list_scope.
Local Open Scope Z_scope.

(* ================================================================= *)
(** ** Python values *)

(** The values [request.get_json()] can produce, and the values
    [jsonify] serialises.  A dict is the list of its items in insertion
    order (a parsed body has distinct keys; a lookup takes the first
    binding).  Python floats are kept as exact rationals: rounding is
    not modelled and nothing below depends on it. *)
Inductive json : Type :=
| JNull : json
| JBool : bool -> json
| JInt : Z -> json
| JFloat : Q -> json
| JStr : string -> json
| JArr : list json -> json
| JObj : list (string * json) -> json.

(** [bool(v)]: the test behind [if v:] and [if not v:]. *)
Definition truthy (v : json) : bool :=
  match v with
  | JNull => false
  | JBool b => b
  | JInt z => negb (z =? 0)
  | JFloat q => negb (Qnum q =? 0)
  | JStr s => negb (s =? "")%string
  | JArr l => match l with [] => false | _ => true end
  | JObj l => match l with [] => false | _ => true end
  end.

(** [type(v).__name__] *)
Definition type_name (v : json) : string :=
  match v with
  | JNull => "NoneType"
  | JBool _ => "bool"
  | JInt _ => "int"
  | JFloat _ => "float"
  | JStr _ => "str"
  | JArr _ => "list"
  | JObj _ => "dict"
  end.

(** The exceptions the handlers can meet.  Each carries [str(e)]. *)
Inductive exn : Type :=
| AttributeError : string -> exn
| TypeError : string -> exn
| ValueError : string -> exn
| OverflowError : string -> exn
| DatabaseError : string -> exn.

Definition str_exn (e : exn) : string :=
  match e with
  | AttributeError m | TypeError m | ValueError m
  | OverflowError m | DatabaseError m => m
  end.

Definition is_ValueError (e : exn) : bool :=
  match e with ValueError _ => true | _ => false end.

Inductive result (A : Type) : Type :=
| Ok : A -> result A
| Raise : exn -> result A.
Arguments Ok {A} _.
Arguments Raise {A} _.

Definition no_attribute (v : json) (attr : string) : exn :=
  AttributeError
    ("'" ++ type_name v ++ "' object has no attribute '" ++ attr ++ "'")%string.

Fixpoint assoc {A : Type} (k : string) (l : list (string * A)) : option A :=
  match l with
  | [] => None
  | (k', v) :: l' => if (k =? k')%string then Some v else assoc k l'
  end.

(** [d.get(key, default)]: only a dict has the method. *)
Definition py_get_default (d : json) (key : string) (default : json) : result json :=
  match d with
  | JObj kv => Ok (match assoc key kv with Some v => v | None => default end)
  | _ => Raise (no_attribute d "get")
  end.

(** [d.get(key)] *)
Definition py_get (d : json) (key : string) : result json :=
  py_get_default d key JNull.

Fixpoint chars (s : string) : list json :=
  match s with
  | EmptyString => []
  | String c s' => JStr (String c EmptyString) :: chars s'
  end.

(** [for r in v]: the items a [for] loop visits. *)
Definition py_iter (v : json) : result (list json) :=
  match v with
  | JArr l => Ok l
  | JStr s => Ok (chars s)
  | JObj kv => Ok (map (fun p => JStr (fst p)) kv)
  | _ => Raise (TypeError ("'" ++ type_name v ++ "' object is not iterable")%string)
  end.

(** [len(v)] *)
Definition py_len (v : json) : result Z :=
  match v with
  | JArr l => Ok (Z.of_nat (List.length l))
  | JStr s => Ok (Z.of_nat (String.length s))
  | JObj kv => Ok (Z.of_nat (List.length kv))
  | _ => Raise (TypeError ("object of type '" ++ type_name v ++ "' has no len()")%string)
  end.

(** [s.replace(old, new)] for a one-character [old]: every occurrence
    is replaced. *)
Fixpoint replace_char (old : ascii) (new : string) (s : string) : string :=
  match s with
  | EmptyString => EmptyString
  | String c s' =>
      if Ascii.eqb c old then (new ++ replace_char old new s')%string
      else String c (replace_char old new s')
  end.

(** [ts.replace('Z', '+00:00')]: only a str has the method. *)
Definition py_replace_Z (ts : json) : result string :=
  match ts with
  | JStr s => Ok (replace_char "Z"%char "+00:00" s)
  | _ => Raise (no_attribute ts "replace")
  end.

(* ----------------------------------------------------------------- *)
(** *** [int(s)] on a query-string value *)

Definition is_space (c : ascii) : bool :=
  match nat_of_ascii c with
  | 9%nat | 10%nat | 11%nat | 12%nat | 13%nat | 32%nat => true
  | _ => false
  end.

Definition digit_of (c : ascii) : option Z :=
  let n := Z.of_nat (nat_of_ascii c) in
  if (48 <=? n) && (n <=? 57) then Some (n - 48) else None.

Fixpoint lstrip (s : string) : string :=
  match s with
  | String c s' => if is_space c then lstrip s' else s
  | EmptyString => EmptyString
  end.

Fixpoint all_space (s : string) : bool :=
  match s with
  | EmptyString => true
  | String c s' => is_space c && all_space s'
  end.

(** Digits with single underscores between them, then optional
    trailing white space.  [prev] tells whether the previous character
    was a digit. *)
Fixpoint digits (acc : Z) (prev : bool) (s : string) : option Z :=
  match s with
  | EmptyString => if prev then Some acc else None
  | String c s' =>
      match digit_of c with
      | Some d => digits (10 * acc + d) true s'
      | None =>
          if Ascii.eqb c "_"%char then
            if prev then
              match s' with
              | String c' _ =>
                  match digit_of c' with
                  | Some _ => digits acc false s'
                  | None => None
                  end
              | EmptyString => None
              end
            else None
          else if prev && all_space s then Some acc else None
      end
  end.

(** [int(s)] for an ASCII [str]: white space is stripped, one sign is
    allowed, the rest is decimal digits.  [None] stands for
    [ValueError].  Digits of other scripts and the interpreter's cap on
    the number of digits are not modelled. *)
Definition int_of_str (s : string) : option Z :=
  match lstrip s with
  | String "-"%char s' => option_map Z.opp (digits 0 false s')
  | String "+"%char s' => digits 0 false s'
  | s' => digits 0 false s'
  end.

Definition py_int (s : string) : result Z :=
  match int_of_str s with
  | Some z => Ok z
  | None =>
      Raise (ValueError
               ("invalid literal for int() with base 10: '" ++ s ++ "'")%string)
  end.

(* ================================================================= *)
(** ** Time *)

(** A [datetime] is an instant: microseconds since 1970-01-01T00:00Z. *)
Definition datetime : Type := Z.

(** [datetime.min] and [datetime.max] (years 1 to 9999). *)
Definition datetime_min : datetime := -62135596800000000.
Definition datetime_max : datetime := 253402300799999999.

(** [timedelta(hours=h)], in microseconds.  A [timedelta] holds at most
    999999999 days in either direction. *)
Definition timedelta_hours (h : Z) : result Z :=
  if Z.abs (h / 24) <=? 999999999 then Ok (h * 3600000000)
  else Raise (OverflowError "days must have magnitude <= 999999999").

(** [t - delta] on a [datetime] *)
Definition datetime_sub (t : datetime) (delta : Z) : result datetime :=
  let r := t - delta in
  if (datetime_min <=? r) && (r <=? datetime_max) then Ok r
  else Raise (OverflowError "date value out of range").

(* ================================================================= *)
(** ** Storage *)

(** Modelled from the spec: the schema of the two tables is not part of
    the repository.  The columns are those the statements name, with
    the types and optionality of the data model: [co2] and
    [uptime_seconds] optional integers, [temp] and [humidity] optional
    numbers, every other column present. *)
Record Reading : Type := mkReading {
  rd_device : string;
  rd_co2 : option Z;
  rd_temp : option Q;
  rd_humidity : option Q;
  rd_created_at : datetime
}.

Record SensorEvent : Type := mkSensorEvent {
  ev_device : string;
  ev_event_type : string;
  ev_message : string;
  ev_uptime_seconds : option Z;
  ev_created_at : datetime
}.

(** The tables, in insertion order. *)
Record db : Type := mkDb {
  readings : list Reading;
  sensor_events : list SensorEvent
}.

(** What a request runs against: the committed tables, the error
    [psycopg.connect] raises when the server cannot be reached (if
    any), and the number of clock reads so far. *)
Record world : Type := mkWorld {
  store : db;
  db_fault : option string;
  tick : nat
}.

Definition set_store (d : db) (w : world) : world :=
  mkWorld d (db_fault w) (tick w).

Definition advance (w : world) : world :=
  mkWorld (store w) (db_fault w) (S (tick w)).

(** What lies outside the repository: the wall clock, the two
    [datetime] conversions, the way the driver and the server turn a
    Python parameter into a column value (or refuse it), and the order
    in which the server delivers the rows of a table to a statement
    (any arrangement of them). *)
Class Platform : Type := {
  clock : nat -> datetime;
  fromisoformat : string -> option datetime;
  isoformat : datetime -> string;
  adapt_text : json -> result string;
  adapt_int : json -> result (option Z);
  adapt_num : json -> result (option Q);
  scan : forall A : Type, list A -> list A;
  scan_perm : forall (A : Type) (l : list A), Permutation (scan A l) l
}.
Arguments scan {_ A} _.

(* ----------------------------------------------------------------- *)
(** *** Computations *)

(** State and exceptions: the world is kept when an exception is
    raised (time has passed); [with_db] undoes the table changes. *)
Definition Py (A : Type) : Type := world -> result A * world.

Definition ret {A : Type} (a : A) : Py A := fun w => (Ok a, w).

Definition raise {A : Type} (e : exn) : Py A := fun w => (Raise e, w).

Definition lift {A : Type} (r : result A) : Py A := fun w => (r, w).

Definition bind {A B : Type} (m : Py A) (k : A -> Py B) : Py B :=
  fun w =>
    match m w with
    | (Ok a, w') => k a w'
    | (Raise e, w') => (Raise e, w')
    end.

Declare Scope py_scope.
Delimit Scope py_scope with py.
Notation "x <- m ;; k" := (bind m (fun x => k))
  (at level 61, m at next level, right associativity) : py_scope.
Notation "m ;;; k" := (bind m (fun _ => k))
  (at level 61, right associativity) : py_scope.
Local Open Scope py_scope.

(** [try: body  except E as e: handler e], where [catches] tells which
    exceptions [E] covers. *)
Definition try_except {A : Type} (body : Py A) (catches : exn -> bool)
    (handler : exn -> Py A) : Py A :=
  fun w =>
    match body w with
    | (Ok a, w') => (Ok a, w')
    | (Raise e, w') => if catches e then handler e w' else (Raise e, w')
    end.

(** [except Exception] *)
Definition Exception (e : exn) : bool := true.

(** [with get_db() as conn: with conn.cursor() as cur: body].
    [psycopg.connect] raises when the server cannot be reached; the
    connection block of psycopg 3 commits when the body returns and
    rolls back when it raises. *)
Definition with_db {A : Type} (body : Py A) : Py A :=
  fun w =>
    match db_fault w with
    | Some msg => (Raise (DatabaseError msg), w)
    | None =>
        match body w with
        | (Ok a, w') => (Ok a, w')
        | (Raise e, w') => (Raise e, set_store (store w) w')
        end
    end.

(** An HTTP response: the JSON body and the status code. *)
Definition response : Type := (json * Z)%type.

Definition jsonify (v : json) : response := (v, 200).

(* ----------------------------------------------------------------- *)
(** *** ORDER BY, LIMIT, LIKE and the aggregates *)

Section OrderBy.
Context {A : Type} (key : A -> Z).

(** [before desc a b]: [a] may stand before [b]. *)
Definition before (desc : bool) (a b : A) : bool :=
  if desc then key b <=? key a else key a <=? key b.

Fixpoint insert_by (desc : bool) (x : A) (l : list A) : list A :=
  match l with
  | [] => [x]
  | y :: l' =>
      if before desc x y then x :: l else y :: insert_by desc x l'
  end.

(** The sort behind [ORDER BY key ASC] ([desc = false]) or [DESC].
    Rows with equal keys stay in the order they came in; a statement
    sorts what the scan of the platform delivers (see [sql_order_by]),
    so that order is left open. *)
Definition order_by (desc : bool) (l : list A) : list A :=
  fold_right (insert_by desc) [] l.
End OrderBy.

(** [LIMIT n]: the server refuses a negative count and one beyond
    [bigint]. *)
Definition sql_limit {A : Type} (n : Z) (rows : list A) : result (list A) :=
  if n <? 0 then Raise (DatabaseError "LIMIT must not be negative")
  else if 9223372036854775807 <? n then
    Raise (DatabaseError "bigint out of range")
  else Ok (firstn (Z.to_nat n) rows).

Definition lower_char (c : ascii) : ascii :=
  let n := nat_of_ascii c in
  if (65 <=? n)%nat && (n <=? 90)%nat then ascii_of_nat (n + 32) else c.

(** [LOWER(s)], on ASCII letters. *)
Fixpoint lower (s : string) : string :=
  match s with
  | EmptyString => EmptyString
  | String c s' => String (lower_char c) (lower s')
  end.

(** [s LIKE '%pat%'] for a pattern without wild cards. *)
Fixpoint like_contains (pat s : string) : bool :=
  String.prefix pat s ||
  match s with
  | EmptyString => false
  | String _ s' => like_contains pat s'
  end.

Fixpoint somes {A : Type} (l : list (option A)) : list A :=
  match l with
  | [] => []
  | Some a :: l' => a :: somes l'
  | None :: l' => somes l'
  end.

Definition Qsum (l : list Q) : Q := fold_right Qplus (0 # 1) l.

(** [AVG]: the mean of the non-null values, NULL when there is none. *)
Definition sql_avg (l : list (option Q)) : option Q :=
  match somes l with
  | [] => None
  | v :: vs => Some (Qsum (v :: vs) / inject_Z (Z.of_nat (List.length (v :: vs))))%Q
  end.

Definition Qmin' (a b : Q) : Q := if Qle_bool a b then a else b.
Definition Qmax' (a b : Q) : Q := if Qle_bool a b then b else a.

Definition sql_min_Q (l : list (option Q)) : option Q :=
  match somes l with
  | [] => None
  | v :: vs => Some (fold_left Qmin' vs v)
  end.

Definition sql_max_Q (l : list (option Q)) : option Q :=
  match somes l with
  | [] => None
  | v :: vs => Some (fold_left Qmax' vs v)
  end.

Definition sql_min_Z (l : list (option Z)) : option Z :=
  match somes l with
  | [] => None
  | v :: vs => Some (fold_left Z.min vs v)
  end.

Definition sql_max_Z (l : list (option Z)) : option Z :=
  match somes l with
  | [] => None
  | v :: vs => Some (fold_left Z.max vs v)
  end.

(* ----------------------------------------------------------------- *)
(** *** The statements the handlers execute *)

Section Statements.
Context {P : Platform}.

(** [datetime.now(timezone.utc)], and the server's [now()] behind a
    defaulted [created_at]: one clock read. *)
Definition now : Py datetime :=
  fun w => (Ok (clock (tick w)), advance w).

(** [datetime.fromisoformat(s)] *)
Definition py_fromisoformat (s : string) : result datetime :=
  match fromisoformat s with
  | Some t => Ok t
  | None => Raise (ValueError ("Invalid isoformat string: '" ++ s ++ "'")%string)
  end.

Definition append_reading (r : Reading) : Py unit :=
  fun w =>
    (Ok tt,
     set_store (mkDb (readings (store w) ++ [r]) (sensor_events (store w))) w).

Definition append_event (e : SensorEvent) : Py unit :=
  fun w =>
    (Ok tt,
     set_store (mkDb (readings (store w)) (sensor_events (store w) ++ [e])) w).

(** [INSERT INTO readings (device, co2, temp, humidity[, created_at])
    VALUES (...)]: [created_at] is defaulted when it is not given. *)
Definition insert_reading (device co2 temp humidity : json)
    (created_at : option datetime) : Py unit :=
  d <- lift (adapt_text device) ;;
  c <- lift (adapt_int co2) ;;
  t <- lift (adapt_num temp) ;;
  h <- lift (adapt_num humidity) ;;
  ts <- match created_at with Some ts => ret ts | None => now end ;;
  append_reading (mkReading d c t h ts).

(** [cur.executemany(INSERT INTO readings ..., values)] *)
Fixpoint executemany_insert_readings
    (values : list (json * json * json * json * datetime)) : Py unit :=
  match values with
  | [] => ret tt
  | (device, co2, temp, humidity, created_at) :: values' =>
      insert_reading device co2 temp humidity (Some created_at) ;;;
      executemany_insert_readings values'
  end.

(** [INSERT INTO sensor_events (device, event_type, message,
    uptime_seconds) VALUES (...)] *)
Definition insert_event (device event_type message uptime : json) : Py unit :=
  d <- lift (adapt_text device) ;;
  ty <- lift (adapt_text event_type) ;;
  m <- lift (adapt_text message) ;;
  u <- lift (adapt_int uptime) ;;
  ts <- now ;;
  append_event (mkSensorEvent d ty m u ts).

Definition in_window (device : string) (cutoff : datetime) (r : Reading) : bool :=
  (rd_device r =? device)%string && (cutoff <=? rd_created_at r).

(** A [str] handed to [cur.execute] as a parameter that is compared
    with a text column.  The driver and the server adapt it or refuse
    it (a [str] with a NUL is refused), and [cur.execute] raises on a
    refusal.  A text that stands in the column was accepted when it was
    stored, and is accepted again as it is. *)
Definition text_param (column : list string) (s : string) : result string :=
  if existsb (String.eqb s) column then Ok s else adapt_text (JStr s).

(** [ORDER BY key]: the rows as the server delivers them, sorted.  The
    order among rows with equal keys is the platform's. *)
Definition sql_order_by {A : Type} (key : A -> Z) (desc : bool) (rows : list A)
    : list A :=
  order_by key desc (scan rows).

(** The rows of [SELECT ... FROM readings
    WHERE device = %s AND created_at >= %s ORDER BY created_at ASC] *)
Definition matching_readings (device : string) (cutoff : datetime) (d : db)
    : list Reading :=
  sql_order_by rd_created_at false
    (filter (in_window device cutoff) (readings d)).

Definition reading_row (r : Reading)
    : option Z * option Q * option Q * option datetime :=
  (rd_co2 r, rd_temp r, rd_humidity r, Some (rd_created_at r)).

(** [cur.execute(SELECT co2, temp, humidity, created_at FROM readings
    ..., (device, cutoff))], then [fetchall()]. *)
Definition select_readings (device : string) (cutoff : datetime)
    : Py (list (option Z * option Q * option Q * option datetime)) :=
  fun w =>
    match text_param (map rd_device (readings (store w))) device with
    | Raise e => (Raise e, w)
    | Ok d => (Ok (map reading_row (matching_readings d cutoff (store w))), w)
    end.

Definition event_in_window (device : string) (cutoff : datetime)
    (e : SensorEvent) : bool :=
  (ev_device e =? device)%string && (cutoff <=? ev_created_at e).

Definition event_of_type (event_type : string) (e : SensorEvent) : bool :=
  (ev_event_type e =? event_type)%string.

Definition event_row (e : SensorEvent)
    : string * string * option Z * option datetime :=
  (ev_event_type e, ev_message e, ev_uptime_seconds e, Some (ev_created_at e)).

(** The rows a query for events selects, before [LIMIT]:
    [WHERE device = %s AND created_at >= %s [AND event_type = %s]
    ORDER BY created_at DESC]. *)
Definition matching_events (device : string) (cutoff : datetime)
    (event_type : option string) (d : db) : list SensorEvent :=
  sql_order_by ev_created_at true
    (filter (fun e =>
               event_in_window device cutoff e
               && match event_type with
                  | Some ty => event_of_type ty e
                  | None => true
                  end)
       (sensor_events d)).

Definition fetch_events (rows : result (list SensorEvent))
    : result (list (string * string * option Z * option datetime)) :=
  match rows with
  | Ok es => Ok (map event_row es)
  | Raise e => Raise e
  end.

(** [SELECT event_type, message, uptime_seconds, created_at
    FROM sensor_events WHERE device = %s AND created_at >= %s
    ORDER BY created_at DESC LIMIT %s] *)
Definition select_events (device : string) (cutoff : datetime) (limit : Z)
    : Py (list (string * string * option Z * option datetime)) :=
  fun w =>
    match text_param (map ev_device (sensor_events (store w))) device with
    | Raise e => (Raise e, w)
    | Ok d =>
        (fetch_events (sql_limit limit (matching_events d cutoff None (store w))),
         w)
    end.

(** The same with [AND event_type = %s]. *)
Definition select_events_of_type (device : string) (cutoff : datetime)
    (event_type : string) (limit : Z)
    : Py (list (string * string * option Z * option datetime)) :=
  fun w =>
    match text_param (map ev_device (sensor_events (store w))) device with
    | Raise e => (Raise e, w)
    | Ok d =>
        match text_param (map ev_event_type (sensor_events (store w)))
                event_type with
        | Raise e => (Raise e, w)
        | Ok ty =>
            (fetch_events
               (sql_limit limit (matching_events d cutoff (Some ty) (store w))),
             w)
        end
    end.

Definition is_calibration (device : string) (e : SensorEvent) : bool :=
  (ev_device e =? device)%string
  && like_contains "calibrat" (lower (ev_message e)).

(** [SELECT created_at FROM sensor_events
    WHERE device = %s AND LOWER(message) LIKE '%calibrat%'
    ORDER BY created_at DESC LIMIT 1], then [fetchone()]. *)
Definition select_last_calibration (device : string)
    : Py (option (option datetime)) :=
  fun w =>
    match text_param (map ev_device (sensor_events (store w))) device with
    | Raise e => (Raise e, w)
    | Ok d =>
        (Ok (match sql_order_by ev_created_at true
                     (filter (is_calibration d) (sensor_events (store w))) with
             | e :: _ => Some (Some (ev_created_at e))
             | [] => None
             end),
         w)
    end.

(** The row of the aggregate query, with the aliases of the
    statement. *)
Record StatsRow : Type := mkStatsRow {
  count : Z;
  avg_co2 : option Q;
  min_co2 : option Z;
  max_co2 : option Z;
  avg_temp : option Q;
  min_temp : option Q;
  max_temp : option Q;
  avg_humidity : option Q;
  min_humidity : option Q;
  max_humidity : option Q
}.

Definition aggregate (rows : list Reading) : StatsRow :=
  mkStatsRow
    (Z.of_nat (List.length rows))
    (sql_avg (map (fun r => option_map inject_Z (rd_co2 r)) rows))
    (sql_min_Z (map rd_co2 rows))
    (sql_max_Z (map rd_co2 rows))
    (sql_avg (map rd_temp rows))
    (sql_min_Q (map rd_temp rows))
    (sql_max_Q (map rd_temp rows))
    (sql_avg (map rd_humidity rows))
    (sql_min_Q (map rd_humidity rows))
    (sql_max_Q (map rd_humidity rows)).

(** [SELECT COUNT( * ), AVG(co2), MIN(co2), ... FROM readings
    WHERE device = %s AND created_at >= %s], then [fetchone()]: an
    aggregate without GROUP BY always yields one row. *)
Definition select_stats (device : string) (cutoff : datetime)
    : Py (option StatsRow) :=
  fun w =>
    match text_param (map rd_device (readings (store w))) device with
    | Raise e => (Raise e, w)
    | Ok d =>
        (Ok (Some (aggregate (filter (in_window d cutoff) (readings (store w))))),
         w)
    end.
End Statements.

(** [request.args.get(key)] *)
Definition args_get (args : list (string * string)) (key : string) : option string :=
  assoc key args.

(** [int(request.args.get(key, default))] *)
Definition int_arg (args : list (string * string)) (key : string) (default : Z)
    : result Z :=
  match args_get args key with
  | Some s => py_int s
  | None => Ok default
  end.

Definition error_body (msg : string) : json := JObj [("error", JStr msg)].

(** [x] for an integer column: an [int] or [None]. *)
Definition int_or_none (x : option Z) : json :=
  match x with Some z => JInt z | None => JNull end.

(** [float(x) if x is not None else None] *)
Definition float_if_not_none (x : option Q) : json :=
  match x with Some q => JFloat (Qred q) | None => JNull end.

(** [float(x) if x else None]: zero is falsy too. *)
Definition float_if_truthy (x : option Q) : json :=
  match x with
  | Some q => if Qnum q =? 0 then JNull else JFloat (Qred q)
  | None => JNull
  end.

(* ================================================================= *)
(** ** [src/local-sensor-api/sensor_api.py] *)

Module Local.
Section Handlers.
Context {P : Platform}.

(** [GET /health] *)
Definition health : Py response :=
  try_except
    (with_db (ret tt) ;;;
     ret (jsonify (JObj [("status", JStr "ok"); ("database", JStr "connected")])))
    Exception
    (fun e => ret (JObj [("status", JStr "error"); ("database", JStr (str_exn e))], 500)).

(** [POST /api/sensor] *)
Definition receive_single (data : json) : Py response :=
  if negb (truthy data) then ret (error_body "No JSON data", 400) else
  device <- lift (py_get data "device") ;;
  if negb (truthy device) then ret (error_body "Missing device name", 400) else
  try_except
    (with_db
       (co2 <- lift (py_get data "co2") ;;
        temp <- lift (py_get data "temp") ;;
        humidity <- lift (py_get data "humidity") ;;
        insert_reading device co2 temp humidity None) ;;;
     ret (jsonify (JObj [("status", JStr "ok")])))
    Exception
    (fun e => ret (error_body (str_exn e), 500)).

(** The timestamp of one entry of a batch: the [ts] branch of the
    loop of [receive_batch]. *)
Definition created_at_of (ts : json) : Py datetime :=
  if truthy ts then
    try_except
      (s <- lift (py_replace_Z ts) ;; lift (py_fromisoformat s))
      is_ValueError
      (fun _ => now)
  else now.

(** [for r in readings: ... values.append(...)] *)
Fixpoint batch_values (device : json) (rs : list json)
    : Py (list (json * json * json * json * datetime)) :=
  match rs with
  | [] => ret []
  | r :: rs' =>
      ts <- lift (py_get r "ts") ;;
      created_at <- created_at_of ts ;;
      co2 <- lift (py_get r "co2") ;;
      temp <- lift (py_get r "temp") ;;
      humidity <- lift (py_get r "humidity") ;;
      values <- batch_values device rs' ;;
      ret ((device, co2, temp, humidity, created_at) :: values)
  end.

(** [POST /api/sensor/batch] *)
Definition receive_batch (data : json) : Py response :=
  if negb (truthy data) then ret (error_body "No JSON data", 400) else
  device <- lift (py_get data "device") ;;
  readings <- lift (py_get_default data "readings" (JArr [])) ;;
  if negb (truthy device) then ret (error_body "Missing device name", 400) else
  if negb (truthy readings) then ret (error_body "No readings provided", 400) else
  try_except
    (with_db
       (rs <- lift (py_iter readings) ;;
        values <- batch_values device rs ;;
        executemany_insert_readings values) ;;;
     stored <- lift (py_len readings) ;;
     ret (jsonify (JObj [("status", JStr "ok"); ("stored", JInt stored)])))
    Exception
    (fun e => ret (error_body (str_exn e), 500)).

(** [POST /api/sensor/log] *)
Definition receive_event (data : json) : Py response :=
  if negb (truthy data) then ret (error_body "No JSON data", 400) else
  device <- lift (py_get data "device") ;;
  if negb (truthy device) then ret (error_body "Missing device name", 400) else
  event_type <- lift (py_get_default data "event_type" (JStr "info")) ;;
  message <- lift (py_get_default data "message" (JStr "")) ;;
  uptime <- lift (py_get data "uptime") ;;
  try_except
    (with_db (insert_event device event_type message uptime) ;;;
     ret (jsonify (JObj [("status", JStr "ok")])))
    Exception
    (fun e => ret (error_body (str_exn e), 500)).
End Handlers.
End Local.

(* ================================================================= *)
(** ** [src/SCD4X/scd41-co2-monitor-local/local-sensor-api/sensor_api.py] *)

Module Scd41.
Section Handlers.
Context {P : Platform}.

(** [GET /health] *)
Definition health : Py response :=
  try_except
    (with_db (ret tt) ;;;
     ret (jsonify (JObj [("status", JStr "ok"); ("database", JStr "connected")])))
    Exception
    (fun e => ret (JObj [("status", JStr "error"); ("database", JStr (str_exn e))], 500)).

(** [POST /api/sensor] *)
Definition receive_single (data : json) : Py response :=
  if negb (truthy data) then ret (error_body "No JSON data", 400) else
  device <- lift (py_get data "device") ;;
  if negb (truthy device) then ret (error_body "Missing device name", 400) else
  try_except
    (with_db
       (co2 <- lift (py_get data "co2") ;;
        temp <- lift (py_get data "temp") ;;
        humidity <- lift (py_get data "humidity") ;;
        insert_reading device co2 temp humidity None) ;;;
     ret (jsonify (JObj [("status", JStr "ok")])))
    Exception
    (fun e => ret (error_body (str_exn e), 500)).

(** The timestamp of one entry of a batch: the [ts] branch of the
    loop of [receive_batch]. *)
Definition created_at_of (ts : json) : Py datetime :=
  if truthy ts then
    try_except
      (s <- lift (py_replace_Z ts) ;; lift (py_fromisoformat s))
      is_ValueError
      (fun _ => now)
  else now.

(** [for r in readings: ... values.append(...)] *)
Fixpoint batch_values (device : json) (rs : list json)
    : Py (list (json * json * json * json * datetime)) :=
  match rs with
  | [] => ret []
  | r :: rs' =>
      ts <- lift (py_get r "ts") ;;
      created_at <- created_at_of ts ;;
      co2 <- lift (py_get r "co2") ;;
      temp <- lift (py_get r "temp") ;;
      humidity <- lift (py_get r "humidity") ;;
      values <- batch_values device rs' ;;
      ret ((device, co2, temp, humidity, created_at) :: values)
  end.

(** [POST /api/sensor/batch] *)
Definition receive_batch (data : json) : Py response :=
  if negb (truthy data) then ret (error_body "No JSON data", 400) else
  device <- lift (py_get data "device") ;;
  readings <- lift (py_get_default data "readings" (JArr [])) ;;
  if negb (truthy device) then ret (error_body "Missing device name", 400) else
  if negb (truthy readings) then ret (error_body "No readings provided", 400) else
  try_except
    (with_db
       (rs <- lift (py_iter readings) ;;
        values <- batch_values device rs ;;
        executemany_insert_readings values) ;;;
     stored <- lift (py_len readings) ;;
     ret (jsonify (JObj [("status", JStr "ok"); ("stored", JInt stored)])))
    Exception
    (fun e => ret (error_body (str_exn e), 500)).

(** [POST /api/sensor/log] *)
Definition receive_event (data : json) : Py response :=
  if negb (truthy data) then ret (error_body "No JSON data", 400) else
  device <- lift (py_get data "device") ;;
  if negb (truthy device) then ret (error_body "Missing device name", 400) else
  event_type <- lift (py_get_default data "event_type" (JStr "info")) ;;
  message <- lift (py_get_default data "message" (JStr "")) ;;
  uptime <- lift (py_get data "uptime") ;;
  try_except
    (with_db (insert_event device event_type message uptime) ;;;
     ret (jsonify (JObj [("status", JStr "ok")])))
    Exception
    (fun e => ret (error_body (str_exn e), 500)).

(** [row[3].isoformat() if row[3] else None]: a [datetime] is always
    truthy. *)
Definition iso_or_none (t : option datetime) : json :=
  match t with Some t => JStr (isoformat t) | None => JNull end.

(** [datetime.now(timezone.utc) - timedelta(hours=hours)] *)
Definition cutoff_of (hours : Z) : Py datetime :=
  t <- now ;;
  delta <- lift (timedelta_hours hours) ;;
  lift (datetime_sub t delta).

Definition reading_json (row : option Z * option Q * option Q * option datetime)
    : json :=
  let '(co2, temp, humidity, created_at) := row in
  JObj [("co2", int_or_none co2);
        ("temp", float_if_not_none temp);
        ("humidity", float_if_not_none humidity);
        ("ts", iso_or_none created_at)].

(** [GET /api/sensor] *)
Definition get_readings (args : list (string * string)) : Py response :=
  match args_get args "device" with
  | None | Some EmptyString => ret (error_body "Missing device parameter", 400)
  | Some device =>
      hours <- lift (int_arg args "hours" 24) ;;
      cutoff <- cutoff_of hours ;;
      try_except
        (rows <- with_db (select_readings device cutoff) ;;
         ret (jsonify (JArr (map reading_json rows))))
        Exception
        (fun e => ret (error_body (str_exn e), 500))
  end.

Definition event_json (row : string * string * option Z * option datetime)
    : json :=
  let '(event_type, message, uptime, created_at) := row in
  JObj [("event_type", JStr event_type);
        ("message", JStr message);
        ("uptime", int_or_none uptime);
        ("heap", JNull);
        ("total_measurements", JNull);
        ("ts", iso_or_none created_at)].

(** [GET /api/sensor/log] *)
Definition get_events (args : list (string * string)) : Py response :=
  match args_get args "device" with
  | None | Some EmptyString => ret (error_body "Missing device parameter", 400)
  | Some device =>
      hours <- lift (int_arg args "hours" 24) ;;
      limit <- lift (int_arg args "limit" 50) ;;
      let event_type := args_get args "type" in
      cutoff <- cutoff_of hours ;;
      try_except
        (rows <- with_db
                   match event_type with
                   | None | Some EmptyString => select_events device cutoff limit
                   | Some ty => select_events_of_type device cutoff ty limit
                   end ;;
         ret (jsonify (JArr (map event_json rows))))
        Exception
        (fun e => ret (error_body (str_exn e), 500))
  end.

(** [GET /api/sensor/calibration] *)
Definition get_last_calibration (args : list (string * string)) : Py response :=
  match args_get args "device" with
  | None | Some EmptyString => ret (error_body "Missing device parameter", 400)
  | Some device =>
      try_except
        (row <- with_db (select_last_calibration device) ;;
         match row with
         | Some (Some created_at) =>
             ret (jsonify (JObj [("date", JStr (isoformat created_at))]))
         | _ => ret (jsonify (JObj [("date", JNull)]))
         end)
        Exception
        (fun e => ret (error_body (str_exn e), 500))
  end.

Definition stats_json (row : StatsRow) : json :=
  JObj [("count", JInt (count row));
        ("co2", JObj [("avg", float_if_truthy (avg_co2 row));
                      ("min", int_or_none (min_co2 row));
                      ("max", int_or_none (max_co2 row))]);
        ("temp", JObj [("avg", float_if_truthy (avg_temp row));
                       ("min", float_if_truthy (min_temp row));
                       ("max", float_if_truthy (max_temp row))]);
        ("humidity", JObj [("avg", float_if_truthy (avg_humidity row));
                           ("min", float_if_truthy (min_humidity row));
                           ("max", float_if_truthy (max_humidity row))])].

Definition no_stats : json :=
  JObj [("count", JInt 0); ("co2", JNull); ("temp", JNull); ("humidity", JNull)].

(** [GET /api/sensor/stats] *)
Definition get_stats (args : list (string * string)) : Py response :=
  match args_get args "device" with
  | None | Some EmptyString => ret (error_body "Missing device parameter", 400)
  | Some device =>
      hours <- lift (int_arg args "hours" 24) ;;
      cutoff <- cutoff_of hours ;;
      try_except
        (row <- with_db (select_stats device cutoff) ;;
         match row with
         | Some r =>
             if 0 <? count r then ret (jsonify (stats_json r))
             else ret (jsonify no_stats)
         | None => ret (jsonify no_stats)
         end)
        Exception
        (fun e => ret (error_body (str_exn e), 500))
  end.

(** The routes of the application. *)
Inductive endpoint : Type :=
| GET_health
| POST_api_sensor
| POST_api_sensor_batch
| POST_api_sensor_log
| GET_api_sensor
| GET_api_sensor_log
| GET_api_sensor_calibration
| GET_api_sensor_stats.

(** A request: the parsed JSON body ([request.get_json()]) and the
    query string ([request.args]). *)
Record request : Type := mkRequest {
  body : json;
  args : list (string * string)
}.

Definition dispatch (ep : endpoint) (req : request) : Py response :=
  match ep with
  | GET_health => health
  | POST_api_sensor => receive_single (body req)
  | POST_api_sensor_batch => receive_batch (body req)
  | POST_api_sensor_log => receive_event (body req)
  | GET_api_sensor => get_readings (args req)
  | GET_api_sensor_log => get_events (args req)
  | GET_api_sensor_calibration => get_last_calibration (args req)
  | GET_api_sensor_stats => get_stats (args req)
  end.
End Handlers.
End Scd41.

(* ================================================================= *)
(** ** A concrete platform *)

(** One instance of [Platform], used to run the handlers on concrete
    requests.  Its clock starts at 2026-01-16T12:05:00Z and moves one
    millisecond per read; its [fromisoformat] reads
    [YYYY-MM-DDTHH:MM:SS] with an optional [+HH:MM] or [-HH:MM]; its
    storage takes a [str] without NUL for a text column, an [int] or
    [None] for an integer column and a number or [None] for a numeric
    column, and delivers the rows of a table in table order. *)
Module Sample.

Definition days_from_civil (y m d : Z) : Z :=
  let y' := if m <=? 2 then y - 1 else y in
  let era := y' / 400 in
  let yoe := y' - era * 400 in
  let doy := (153 * (if 2 <? m then m - 3 else m + 9) + 2) / 5 + d - 1 in
  let doe := yoe * 365 + yoe / 4 - yoe / 100 + doy in
  era * 146097 + doe - 719468.

Definition civil_from_days (z : Z) : Z * Z * Z :=
  let z' := z + 719468 in
  let era := z' / 146097 in
  let doe := z' - era * 146097 in
  let yoe := (doe - doe / 1460 + doe / 36524 - doe / 146096) / 365 in
  let doy := doe - (365 * yoe + yoe / 4 - yoe / 100) in
  let mp := (5 * doy + 2) / 153 in
  let d := doy - (153 * mp + 2) / 5 + 1 in
  let m := if mp <? 10 then mp + 3 else mp - 9 in
  (yoe + era * 400 + (if m <=? 2 then 1 else 0), m, d).

Definition two (a b : ascii) : option Z :=
  match digit_of a, digit_of b with
  | Some x, Some y => Some (10 * x + y)
  | _, _ => None
  end.

Definition offset_of (rest : list ascii) : option Z :=
  match rest with
  | [] => Some 0
  | [sign; h1; h2; ":"%char; m1; m2] =>
      match two h1 h2, two m1 m2 with
      | Some h, Some m =>
          if Ascii.eqb sign "+"%char then Some (h * 60 + m)
          else if Ascii.eqb sign "-"%char then Some (- (h * 60 + m))
          else None
      | _, _ => None
      end
  | _ => None
  end.

Definition fromisoformat (s : string) : option datetime :=
  match list_ascii_of_string s with
  | y1 :: y2 :: y3 :: y4 :: "-"%char :: mo1 :: mo2 :: "-"%char :: d1 :: d2
    :: "T"%char :: h1 :: h2 :: ":"%char :: mi1 :: mi2 :: ":"%char :: s1 :: s2
    :: rest =>
      match two y1 y2, two y3 y4, two mo1 mo2, two d1 d2,
            two h1 h2, two mi1 mi2, two s1 s2, offset_of rest with
      | Some yh, Some yl, Some mo, Some d, Some h, Some mi, Some sec, Some off =>
          if (1 <=? mo) && (mo <=? 12) && (1 <=? d) && (d <=? 31)
             && (h <=? 23) && (mi <=? 59) && (sec <=? 59)
          then
            Some ((days_from_civil (100 * yh + yl) mo d * 86400
                   + h * 3600 + (mi - off) * 60 + sec) * 1000000)
          else None
      | _, _, _, _, _, _, _, _ => None
      end
  | _ => None
  end.

Definition digit_char (n : Z) : ascii := ascii_of_nat (48 + Z.to_nat (n mod 10)).

Definition pad2 (n : Z) : string :=
  String (digit_char (n / 10)) (String (digit_char n) EmptyString).

Definition pad4 (n : Z) : string := (pad2 (n / 100) ++ pad2 n)%string.

Definition pad6 (n : Z) : string := (pad4 (n / 100) ++ pad2 n)%string.

Definition isoformat (t : datetime) : string :=
  let secs := t / 1000000 in
  let us := t mod 1000000 in
  let '(y, m, d) := civil_from_days (secs / 86400) in
  let sod := secs mod 86400 in
  let fraction := if us =? 0 then "" else ("." ++ pad6 us)%string in
  (pad4 y ++ "-" ++ pad2 m ++ "-" ++ pad2 d ++ "T"
   ++ pad2 (sod / 3600) ++ ":" ++ pad2 (sod / 60 mod 60) ++ ":" ++ pad2 (sod mod 60)
   ++ fraction ++ "+00:00")%string.

Definition clock (k : nat) : datetime := 1768565100000000 + 1000 * Z.of_nat k.

Definition refused (v : json) (column : string) : exn :=
  DatabaseError ("cannot store a " ++ type_name v ++ " as " ++ column)%string.

Fixpoint has_nul (s : string) : bool :=
  match s with
  | EmptyString => false
  | String c s' => Ascii.eqb c zero || has_nul s'
  end.

Definition adapt_text (v : json) : result string :=
  match v with
  | JStr s =>
      if has_nul s then
        Raise (DatabaseError
                 "PostgreSQL text fields cannot contain NUL (0x00) bytes")
      else Ok s
  | _ => Raise (refused v "text")
  end.

Definition adapt_int (v : json) : result (option Z) :=
  match v with
  | JNull => Ok None
  | JInt z => Ok (Some z)
  | _ => Raise (refused v "integer")
  end.

Definition adapt_num (v : json) : result (option Q) :=
  match v with
  | JNull => Ok None
  | JInt z => Ok (Some (inject_Z z))
  | JFloat q => Ok (Some q)
  | _ => Raise (refused v "numeric")
  end.

Definition platform : Platform :=
  Build_Platform clock fromisoformat isoformat adapt_text adapt_int adapt_num
    (fun A l => l) (fun A l => Permutation_refl l).

(** An empty database that can be reached. *)
Definition empty : world := mkWorld (mkDb [] []) None 0.

(** The two requests of the usage example, and a batch whose second
    entry carries a Unix time instead of a string. *)
Definition single_office : json :=
  JObj [("device", JStr "office"); ("co2", JInt 800);
        ("temp", JFloat (22 # 1)); ("humidity", JFloat (45 # 1))].

Definition batch_office : json :=
  JObj [("device", JStr "office");
        ("readings",
         JArr [JObj [("co2", JInt 700); ("ts", JStr "2026-01-16T12:00:00Z")];
               JObj [("co2", JInt 710)]])].

Definition batch_epoch : json :=
  JObj [("device", JStr "office");
        ("readings",
         JArr [JObj [("co2", JInt 700); ("ts", JStr "2026-01-16T12:00:00Z")];
               JObj [("co2", JInt 710); ("ts", JInt 1768564860)]])].

(** 2026-01-16T12:00:00Z and a minute later. *)
Definition noon : datetime := 1768564800000000.
Definition noon_01 : datetime := 1768564860000000.

(** One complete reading and two events of the office device. *)
Definition office : world :=
  mkWorld
    (mkDb [mkReading "office" (Some 800) (Some (22 # 1)) (Some (45 # 1)) noon]
          [mkSensorEvent "office" "info" "Sensor started" (Some 12) noon;
           mkSensorEvent "office" "warning" "Forced CALIBRATION done" (Some 72)
             noon_01])
    None 0.

(** A device that reports CO2 only. *)
Definition co2_only : world :=
  mkWorld
    (mkDb [mkReading "office" (Some 700) None None noon;
           mkReading "office" (Some 710) None None noon_01]
          [])
    None 0.

(** A device name with a NUL in it: [a\x00b]. *)
Definition nul_device : string :=
  String "a"%char (String zero (String "b"%char EmptyString)).

(** A reading at the freezing point. *)
Definition freezing : world :=
  mkWorld (mkDb [mkReading "shed" (Some 420) (Some (0 # 1)) (Some (80 # 1)) noon] [])
    None 0.

End Sample.

(* ================================================================= *)
(** ** Vocabulary of the properties *)

(** The order [ORDER BY] promises between a row and a later one. *)
Definition in_order {A : Type} (key : A -> Z) (desc : bool) (a b : A) : Prop :=
  if desc then key b <= key a else key a <= key b.

(** The device parameter of a row handed to [executemany]. *)
Definition value_device (v : json * json * json * json * datetime) : json :=
  let '(device, _, _, _, _) := v in device.

(** The row of [readings] one parameter tuple becomes. *)
Definition stored_as {P : Platform} (v : json * json * json * json * datetime)
    (r : Reading) : Prop :=
  let '(device, co2, temp, humidity, created_at) := v in
  adapt_text device = Ok (rd_device r)
  /\ adapt_int co2 = Ok (rd_co2 r)
  /\ adapt_num temp = Ok (rd_temp r)
  /\ adapt_num humidity = Ok (rd_humidity r)
  /\ rd_created_at r = created_at.

Definition ok_stored (n : Z) : json :=
  JObj [("status", JStr "ok"); ("stored", JInt n)].

(** The guarded section of [receive_batch], on a request that passed
    validation. *)
Definition batch_section {P : Platform} (device rdgs : json) : Py response :=
  try_except
    (with_db
       (rs <- lift (py_iter rdgs) ;;
        values <- Scd41.batch_values device rs ;;
        executemany_insert_readings values) ;;;
     stored <- lift (py_len rdgs) ;;
     ret (jsonify (JObj [("status", JStr "ok"); ("stored", JInt stored)])))
    Exception
    (fun e => ret (error_body (str_exn e), 500)).

(** The two outcomes of a batch that passed validation.  [out] is what
    the handler returns: the response and the world it leaves. *)
Definition batch_committed {P : Platform} (device rdgs : json) (w : world)
    (out : result response * world) : Prop :=
  exists rs values w1 rows,
    rdgs = JArr rs
    /\ fst out = Ok (ok_stored (Z.of_nat (List.length rs)), 200)
    /\ store w1 = store w
    /\ executemany_insert_readings values w1 = (Ok tt, snd out)
    /\ Forall (fun v => value_device v = device) values
    /\ Forall2 stored_as values rows
    /\ List.length rows = List.length rs
    /\ Forall (fun r => adapt_text device = Ok (rd_device r)) rows
    /\ readings (store (snd out)) = readings (store w) ++ rows
    /\ sensor_events (store (snd out)) = sensor_events (store w).

Definition batch_failed (w : world) (out : result response * world) : Prop :=
  exists msg,
    fst out = Ok (error_body msg, 500) /\ store (snd out) = store w.

(** The JSON object [body] has an [error] member. *)
Definition has_error_field (body : json) : Prop :=
  exists kv msg, body = JObj kv /\ assoc "error" kv = Some msg.

Definition is_post (ep : Scd41.endpoint) : bool :=
  match ep with
  | Scd41.POST_api_sensor | Scd41.POST_api_sensor_batch
  | Scd41.POST_api_sensor_log => true
  | _ => false
  end.

Definition is_dict (v : json) : bool :=
  match v with JObj _ => true | _ => false end.

(** The request names no device: no [device] member in the body of a
    POST (or a falsy one), no [device] in the query string of a GET (or
    an empty one).  The health check reads neither. *)
Definition device_missing (ep : Scd41.endpoint) (req : Scd41.request) : bool :=
  match ep with
  | Scd41.GET_health => true
  | Scd41.POST_api_sensor | Scd41.POST_api_sensor_batch
  | Scd41.POST_api_sensor_log =>
      match py_get (Scd41.body req) "device" with
      | Ok device => negb (truthy device)
      | Raise _ => true
      end
  | _ =>
      match args_get (Scd41.args req) "device" with
      | None | Some EmptyString => true
      | Some _ => false
      end
  end.

(** C5 as the specification words it: on every endpoint, a request
    without a device is answered 400 with an [error] member. *)
Definition missing_device_always_400 (P : Platform) : Prop :=
  forall ep req w,
    device_missing ep req = true ->
    exists body,
      fst (Scd41.dispatch ep req w) = Ok (body, 400) /\ has_error_field body.

(** The four query endpoints. *)
Definition query_endpoints : list Scd41.endpoint :=
  [Scd41.GET_api_sensor; Scd41.GET_api_sensor_log;
   Scd41.GET_api_sensor_calibration; Scd41.GET_api_sensor_stats].

(** The three of them that convert a parameter with [int]. *)
Definition converting_endpoints : list Scd41.endpoint :=
  [Scd41.GET_api_sensor; Scd41.GET_api_sensor_log; Scd41.GET_api_sensor_stats].

(** The query string carries [key] with a value [int] refuses. *)
Definition bad_int (req : Scd41.request) (key : string) : Prop :=
  exists s, args_get (Scd41.args req) key = Some s /\ int_of_str s = None.

Definition valid_device (req : Scd41.request) : Prop :=
  exists device,
    args_get (Scd41.args req) "device" = Some device /\ device <> "".

(** The request has a device and an [hours] (for the events query,
    possibly a [limit]) that is not an integer. *)
Definition bad_int_request (ep : Scd41.endpoint) (req : Scd41.request) : Prop :=
  valid_device req
  /\ (bad_int req "hours" \/ (ep = Scd41.GET_api_sensor_log /\ bad_int req "limit")).

(** C10 as the specification words it: each query endpoint has such a
    request on which an exception leaves the handler. *)
Definition every_query_endpoint_escapes (P : Platform) : Prop :=
  forall ep, In ep query_endpoints ->
    exists req w e,
      bad_int_request ep req /\ fst (Scd41.dispatch ep req w) = Raise e.

(** [o[k]] for a JSON object. *)
Definition member (o : json) (k : string) : option json :=
  match o with
  | JObj kv => assoc k kv
  | _ => None
  end.




(** The object the readings query returns for a row. *)
Definition reading_object {P : Platform} (r : Reading) : json :=
  JObj [("co2", match rd_co2 r with Some z => JInt z | None => JNull end);
        ("temp", match rd_temp r with Some q => JFloat (Qred q) | None => JNull end);
        ("humidity",
         match rd_humidity r with Some q => JFloat (Qred q) | None => JNull end);
        ("ts", JStr (isoformat (rd_created_at r)))].

(** The object the events query returns for a row. *)
Definition event_object {P : Platform} (e : SensorEvent) : json :=
  JObj [("event_type", JStr (ev_event_type e));
        ("message", JStr (ev_message e));
        ("uptime",
         match ev_uptime_seconds e with Some z => JInt z | None => JNull end);
        ("heap", JNull);
        ("total_measurements", JNull);
        ("ts", JStr (isoformat (ev_created_at e)))].

(** The window of a query: the cutoff is [hours] before the clock
    read, and both the interval and the instant are representable. *)
Definition window {P : Platform} (w : world) (hours : Z) (cutoff : datetime) : Prop :=
  exists delta,
    timedelta_hours hours = Ok delta
    /\ datetime_sub (clock (tick w)) delta = Ok cutoff.

(** The filter an events query applies: an empty [type] is no filter. *)
Definition effective_type (ty : option string) : option string :=
  match ty with
  | Some (String c s) => Some (String c s)
  | _ => None
  end.



(** [s] contains [pat] without regard to case: some substring of [s]
    equals [pat] once both are lowered. *)
Definition contains_ci (pat s : string) : Prop :=
  exists pre mid post,
    s = (pre ++ mid ++ post)%string /\ lower mid = lower pat.

(** An event of the device whose message speaks of calibration. *)
Definition calibration_event (device : string) (e : SensorEvent) : Prop :=
  ev_device e = device /\ contains_ci "calibrat" (ev_message e).



(** The creation time of a row handed to [executemany]. *)
Definition value_created_at (v : json * json * json * json * datetime) : datetime :=
  let '(_, _, _, _, created_at) := v in created_at.

(** An entry of a batch whose [ts], if any, is a string. *)
Definition ts_is_text (r : json) : Prop :=
  exists ts,
    py_get r "ts" = Ok ts /\ (truthy ts = false \/ exists s, ts = JStr s).

(** How the timestamp of an entry [r] is settled in the row [v] built
    between the worlds [w] and [w']: the parsed [ts] when there is one
    and it parses, a reading of the clock made meanwhile otherwise. *)
Definition timestamp_settled {P : Platform} (w w' : world) (r : json)
    (v : json * json * json * json * datetime) : Prop :=
  match py_get r "ts" with
  | Ok (JStr (String c s)) =>
      match fromisoformat (replace_char "Z"%char "+00:00" (String c s)) with
      | Some t => value_created_at v = t
      | None =>
          exists k, (tick w <= k < tick w')%nat /\ value_created_at v = clock k
      end
  | _ => exists k, (tick w <= k < tick w')%nat /\ value_created_at v = clock k
  end.

(* ================================================================= *)
(** ** Vocabulary of the further properties *)

Definition status_ok : json := JObj [("status", JStr "ok")].

(** [data.get(k, default)] on the items of a dict. *)
Definition get_or (kv : list (string * json)) (k : string) (default : json)
    : json :=
  match assoc k kv with
  | Some v => v
  | None => default
  end.

(** The world after one row was committed to [readings], one clock
    read later. *)
Definition after_reading (w : world) (r : Reading) : world :=
  mkWorld (mkDb (readings (store w) ++ [r]) (sensor_events (store w)))
    (db_fault w) (S (tick w)).

(** The world after one row was committed to [sensor_events], one
    clock read later. *)
Definition after_event (w : world) (e : SensorEvent) : world :=
  mkWorld (mkDb (readings (store w)) (sensor_events (store w) ++ [e]))
    (db_fault w) (S (tick w)).

(** The parameters of an INSERT into [readings] that the storage
    accepts, and the first refusal otherwise. *)
Definition reading_refused {P : Platform} (device co2 temp humidity : json)
    (e : exn) : Prop :=
  adapt_text device = Raise e
  \/ adapt_int co2 = Raise e
  \/ adapt_num temp = Raise e
  \/ adapt_num humidity = Raise e.

Definition event_refused {P : Platform} (device event_type message uptime : json)
    (e : exn) : Prop :=
  adapt_text device = Raise e
  \/ adapt_text event_type = Raise e
  \/ adapt_text message = Raise e
  \/ adapt_int uptime = Raise e.

(** The tables of [w'] are those of [w] with rows added at the end of
    [readings] only. *)
Definition readings_appended (w w' : world) : Prop :=
  (exists rows, readings (store w') = readings (store w) ++ rows)
  /\ sensor_events (store w') = sensor_events (store w).

(** The same for [sensor_events]. *)
Definition events_appended (w w' : world) : Prop :=
  (exists rows, sensor_events (store w') = sensor_events (store w) ++ rows)
  /\ readings (store w') = readings (store w).

(** A response that is not a success. *)
Definition not_success (r : result response) : Prop :=
  forall body, r <> Ok (body, 200).

(** How a stored timestamp [t] relates to the entry [r] of a batch
    handled between the worlds [w] and [w']. *)
Definition created_at_settled {P : Platform} (w w' : world) (r : json)
    (t : datetime) : Prop :=
  match py_get r "ts" with
  | Ok (JStr (String c s)) =>
      match fromisoformat (replace_char "Z"%char "+00:00" (String c s)) with
      | Some parsed => t = parsed
      | None => exists k, (tick w <= k < tick w')%nat /\ t = clock k
      end
  | _ => exists k, (tick w <= k < tick w')%nat /\ t = clock k
  end.

(** A member the stats query makes a float: null exactly when the
    aggregate is NULL or zero, the float otherwise. *)
Definition null_iff_absent_or_zero (x : option Q) (v : json) : Prop :=
  (v = JNull <-> x = None \/ exists q, x = Some q /\ (q == 0)%Q)
  /\ (forall q, x = Some q -> ~ (q == 0)%Q -> v = JFloat (Qred q)).

(** What a successful request on [ep] may have done to the tables. *)
Definition table_effect (ep : Scd41.endpoint) (w w' : world) : Prop :=
  match ep with
  | Scd41.POST_api_sensor | Scd41.POST_api_sensor_batch => readings_appended w w'
  | Scd41.POST_api_sensor_log => events_appended w w'
  | _ => store w' = store w
  end.

(** The exceptions of the parameter conversions of a query. *)
Definition is_conversion_error (e : exn) : Prop :=
  (exists msg, e = ValueError msg) \/ (exists msg, e = OverflowError msg).

(** The exceptions that can leave the handler of [ep] on [req]. *)
Definition raise_kind (ep : Scd41.endpoint) (req : Scd41.request) (e : exn)
    : Prop :=
  if is_post ep then
    truthy (Scd41.body req) = true /\ is_dict (Scd41.body req) = false
    /\ e = no_attribute (Scd41.body req) "get"
  else is_conversion_error e.

(** The body of a failed health check. *)
Definition health_error (msg : string) : json :=
  JObj [("status", JStr "error"); ("database", JStr msg)].

(** The body of a 500: [{error: msg}], and for the health check
    [{status: "error", database: msg}]. *)
Definition server_error_body (ep : Scd41.endpoint) (body : json) : Prop :=
  (ep <> Scd41.GET_health /\ exists msg, body = error_body msg)
  \/ (ep = Scd41.GET_health /\ exists msg, body = health_error msg).

(** The four ways a request ends: a success, a client error that
    leaves the world alone, a server error or an exception that leave
    the tables alone. *)
Inductive summary (ep : Scd41.endpoint) (req : Scd41.request) (w : world)
    : result response * world -> Prop :=
| summary_ok (body : json) (w' : world) :
    table_effect ep w w' -> summary ep req w (Ok (body, 200), w')
| summary_client (msg : string) :
    summary ep req w (Ok (error_body msg, 400), w)
| summary_server (body : json) (w' : world) :
    store w' = store w ->
    server_error_body ep body ->
    summary ep req w (Ok (body, 500), w')
| summary_raise (e : exn) (w' : world) :
    store w' = store w -> raise_kind ep req e ->
    summary ep req w (Raise e, w').

(** An entry of a batch and the row it is stored as: the row holds the
    device of the request and the entry's [co2], [temp] and [humidity]
    (an absent member as [None]), as the storage adapts them. *)
Definition entry_stored_as {P : Platform} (device r : json) (row : Reading)
    : Prop :=
  exists kv,
    r = JObj kv
    /\ adapt_text device = Ok (rd_device row)
    /\ adapt_int (get_or kv "co2" JNull) = Ok (rd_co2 row)
    /\ adapt_num (get_or kv "temp" JNull) = Ok (rd_temp row)
    /\ adapt_num (get_or kv "humidity" JNull) = Ok (rd_humidity row).

(** The parameter tuple the loop builds for an entry. *)
Definition entry_value (device r : json)
    (v : json * json * json * json * datetime) : Prop :=
  exists kv,
    r = JObj kv
    /\ v = (device, get_or kv "co2" JNull, get_or kv "temp" JNull,
            get_or kv "humidity" JNull, value_created_at v).

(* ----------------------------------------------------------------- *)
(** *** Parameters the storage accepts *)

(** The storage accepts [device] as the parameter of a statement on
    [readings], and compares it as it is. *)
Definition reading_device_ok {P : Platform} (w : world) (device : string) : Prop :=
  text_param (map rd_device (readings (store w))) device = Ok device.

(** The same for a statement on [sensor_events]. *)
Definition event_device_ok {P : Platform} (w : world) (device : string) : Prop :=
  text_param (map ev_device (sensor_events (store w))) device = Ok device.

(** The storage accepts the [type] filter of an events query, when the
    query has one. *)
Definition event_type_ok {P : Platform} (w : world) (ty : option string) : Prop :=
  match effective_type ty with
  | Some t => text_param (map ev_event_type (sensor_events (store w))) t = Ok t
  | None => True
  end.

(** The storage accepts the parameters of the row of one entry of a
    batch, and the entry is an object whose [ts] is a string or falsy. *)
Definition entry_accepted {P : Platform} (r : json) : Prop :=
  ts_is_text r
  /\ exists kv,
       r = JObj kv
       /\ (exists c, adapt_int (get_or kv "co2" JNull) = Ok c)
       /\ (exists t, adapt_num (get_or kv "temp" JNull) = Ok t)
       /\ (exists h, adapt_num (get_or kv "humidity" JNull) = Ok h).

(** When a validated batch is committed: the database can be reached,
    [readings] is an array of entries the loop and the storage accept,
    and the storage accepts the device. *)
Definition batch_accepted {P : Platform} (device rdgs : json) (w : world) : Prop :=
  db_fault w = None
  /\ (exists d, adapt_text device = Ok d)
  /\ exists rs, rdgs = JArr rs /\ Forall entry_accepted rs.

(** The parameters of one INSERT of [executemany] are accepted. *)
Definition value_accepted {P : Platform}
    (v : json * json * json * json * datetime) : Prop :=
  let '(device, co2, temp, humidity, _) := v in
  (exists d, adapt_text device = Ok d)
  /\ (exists c, adapt_int co2 = Ok c)
  /\ (exists t, adapt_num temp = Ok t)
  /\ (exists h, adapt_num humidity = Ok h).


(* ================================================================= *)
(** ** Facts about the storage operators *)

Section OrderByFacts.
Context {A : Type} (key : A -> Z).

Lemma before_in_order (desc : bool) (a b : A) :
  before key desc a b = true <-> in_order key desc a b.
Proof.
  unfold before, in_order. destruct desc; apply Z.leb_le.
Qed.

Lemma before_total (desc : bool) (a b : A) :
  before key desc a b = false -> in_order key desc b a.
Proof.
  unfold before, in_order. destruct desc; intros H; apply Z.leb_gt in H; lia.
Qed.

Lemma in_order_trans (desc : bool) (a b c : A) :
  in_order key desc a b -> in_order key desc b c -> in_order key desc a c.
Proof.
  unfold in_order. destruct desc; lia.
Qed.

Lemma insert_by_perm (desc : bool) (x : A) (l : list A) :
  Permutation (insert_by key desc x l) (x :: l).
Proof.
  induction l as [|y l IH]; simpl.
  - apply Permutation_refl.
  - destruct (before key desc x y).
    + apply Permutation_refl.
    + apply perm_trans with (y :: x :: l).
      * apply perm_skip, IH.
      * apply perm_swap.
Qed.

Lemma order_by_perm (desc : bool) (l : list A) :
  Permutation (order_by key desc l) l.
Proof.
  induction l as [|x l IH]; simpl.
  - apply perm_nil.
  - eapply perm_trans; [apply insert_by_perm|]. apply perm_skip, IH.
Qed.

Lemma order_by_In (desc : bool) (l : list A) (a : A) :
  In a (order_by key desc l) <-> In a l.
Proof.
  split; apply Permutation_in;
    [|apply Permutation_sym]; apply order_by_perm.
Qed.

Lemma order_by_length (desc : bool) (l : list A) :
  List.length (order_by key desc l) = List.length l.
Proof.
  apply Permutation_length, order_by_perm.
Qed.

Lemma insert_by_sorted (desc : bool) (x : A) (l : list A) :
  StronglySorted (in_order key desc) l ->
  StronglySorted (in_order key desc) (insert_by key desc x l).
Proof.
  induction 1 as [|y l Hl IH Hy]; simpl.
  - repeat constructor.
  - destruct (before key desc x y) eqn:E.
    + apply before_in_order in E.
      constructor; [constructor; assumption|].
      constructor; [assumption|].
      eapply Forall_impl; [|exact Hy].
      intros z Hz. eapply in_order_trans; eassumption.
    + apply before_total in E.
      constructor; [assumption|].
      eapply Permutation_Forall;
        [apply Permutation_sym, insert_by_perm|].
      constructor; assumption.
Qed.

Lemma order_by_sorted (desc : bool) (l : list A) :
  StronglySorted (in_order key desc) (order_by key desc l).
Proof.
  induction l as [|x l IH]; simpl.
  - constructor.
  - apply insert_by_sorted, IH.
Qed.

Lemma order_by_Forall (desc : bool) (Q : A -> Prop) (l : list A) :
  Forall Q l -> Forall Q (order_by key desc l).
Proof.
  intros H. eapply Permutation_Forall; [|exact H].
  apply Permutation_sym, order_by_perm.
Qed.

(** The first row of a descending order is a newest one. *)
Lemma order_by_head (desc : bool) (l : list A) (a : A) (rest : list A) :
  order_by key desc l = a :: rest ->
  In a l /\ forall b, In b l -> b = a \/ in_order key desc a b.
Proof.
  intros E. split.
  - apply (order_by_In desc). rewrite E. left. reflexivity.
  - intros b Hb. apply (order_by_In desc) in Hb. rewrite E in Hb.
    destruct Hb as [->|Hb]; [left; reflexivity|right].
    pose proof (order_by_sorted desc l) as S. rewrite E in S.
    inversion S as [|? ? _ Hall]; subst.
    rewrite Forall_forall in Hall. apply Hall, Hb.
Qed.
End OrderByFacts.





Section SqlOrderByFacts.
Context {P : Platform} {A : Type} (key : A -> Z).

Lemma sql_order_by_perm (desc : bool) (l : list A) :
  Permutation (sql_order_by key desc l) l.
Proof.
  unfold sql_order_by.
  eapply perm_trans; [apply order_by_perm|apply scan_perm].
Qed.

Lemma sql_order_by_In (desc : bool) (l : list A) (a : A) :
  In a (sql_order_by key desc l) <-> In a l.
Proof.
  split; apply Permutation_in;
    [|apply Permutation_sym]; apply sql_order_by_perm.
Qed.

Lemma sql_order_by_length (desc : bool) (l : list A) :
  List.length (sql_order_by key desc l) = List.length l.
Proof.
  apply Permutation_length, sql_order_by_perm.
Qed.



(** The first row of an ordered result comes before every other. *)
Lemma sql_order_by_head (desc : bool) (l : list A) (a : A) (rest : list A) :
  sql_order_by key desc l = a :: rest ->
  In a l /\ forall b, In b l -> b = a \/ in_order key desc a b.
Proof.
  intros E. unfold sql_order_by in E.
  destruct (order_by_head key desc _ _ _ E) as [Hin Hall]. split.
  - eapply Permutation_in; [apply scan_perm|exact Hin].
  - intros b Hb. apply Hall.
    eapply Permutation_in; [apply Permutation_sym, scan_perm|exact Hb].
Qed.

(** A text that stands in the column is accepted as a parameter. *)
Lemma text_param_stored (column : list string) (s : string) :
  In s column -> text_param column s = Ok s.
Proof.
  intros H. unfold text_param.
  assert (E : existsb (String.eqb s) column = true).
  { apply existsb_exists. exists s. split; [exact H|apply String.eqb_refl]. }
  rewrite E. reflexivity.
Qed.
End SqlOrderByFacts.

(* ================================================================= *)
(** ** Batch ingestion *)

Ltac run :=
  unfold bind, lift, ret, raise, try_except, with_db, now, Exception in *;
  simpl in *.

Ltac failed := right; eexists; split; reflexivity.

Lemma world_eta (w : world) : set_store (store w) w = w.
Proof. destruct w; reflexivity. Qed.

Section BatchFacts.
Context {P : Platform}.

(** The four ways the timestamp of an entry is settled. *)
Lemma created_at_of_absent (ts : json) (w : world) :
  truthy ts = false ->
  Scd41.created_at_of ts w = (Ok (clock (tick w)), advance w).
Proof.
  intros H. unfold Scd41.created_at_of. rewrite H. reflexivity.
Qed.

Lemma created_at_of_parsed (s : string) (t : datetime) (w : world) :
  s <> "" ->
  fromisoformat (replace_char "Z"%char "+00:00" s) = Some t ->
  Scd41.created_at_of (JStr s) w = (Ok t, w).
Proof.
  intros Hs Hp. unfold Scd41.created_at_of. simpl.
  destruct (String.eqb_spec s ""); [contradiction|]. simpl.
  run. unfold py_fromisoformat. rewrite Hp. reflexivity.
Qed.

Lemma created_at_of_unparsed (s : string) (w : world) :
  s <> "" ->
  fromisoformat (replace_char "Z"%char "+00:00" s) = None ->
  Scd41.created_at_of (JStr s) w = (Ok (clock (tick w)), advance w).
Proof.
  intros Hs Hp. unfold Scd41.created_at_of. simpl.
  destruct (String.eqb_spec s ""); [contradiction|]. simpl.
  run. unfold py_fromisoformat. rewrite Hp. reflexivity.
Qed.

Lemma created_at_of_not_str (ts : json) (w : world) :
  truthy ts = true ->
  (forall s, ts <> JStr s) ->
  Scd41.created_at_of ts w = (Raise (no_attribute ts "replace"), w).
Proof.
  intros Ht Hs. unfold Scd41.created_at_of. rewrite Ht.
  destruct ts; try reflexivity. exfalso. eapply Hs. reflexivity.
Qed.

(** Settling a timestamp touches no table. *)
Lemma created_at_of_store (ts : json) (w : world) :
  store (snd (Scd41.created_at_of ts w)) = store w
  /\ db_fault (snd (Scd41.created_at_of ts w)) = db_fault w.
Proof.
  unfold Scd41.created_at_of. destruct (truthy ts); [|split; reflexivity].
  run. destruct (py_replace_Z ts) as [s|e]; simpl.
  - destruct (py_fromisoformat s) as [t|e]; simpl; [split; reflexivity|].
    destruct (is_ValueError e); split; reflexivity.
  - destruct (is_ValueError e); split; reflexivity.
Qed.

Lemma batch_values_store (device : json) (rs : list json) (w : world) :
  store (snd (Scd41.batch_values device rs w)) = store w
  /\ db_fault (snd (Scd41.batch_values device rs w)) = db_fault w.
Proof.
  revert w. induction rs as [|r rs IH]; intros w; simpl.
  - split; reflexivity.
  - run. destruct (py_get r "ts") as [ts|e]; simpl; [|split; reflexivity].
    pose proof (created_at_of_store ts w) as [Hs Hf].
    destruct (Scd41.created_at_of ts w) as [[t|e] w1]; simpl in *;
      [|split; assumption].
    destruct (py_get r "co2") as [co2|e]; simpl; [|split; assumption].
    destruct (py_get r "temp") as [temp|e]; simpl; [|split; assumption].
    destruct (py_get r "humidity") as [hum|e]; simpl; [|split; assumption].
    specialize (IH w1). destruct (Scd41.batch_values device rs w1) as [[vs|e] w2];
      simpl in *; destruct IH as [IHs IHf]; split; congruence.
Qed.

Lemma batch_values_shape (device : json) (rs : list json) (w w' : world)
    (values : list (json * json * json * json * datetime)) :
  Scd41.batch_values device rs w = (Ok values, w') ->
  List.length values = List.length rs
  /\ Forall (fun v => value_device v = device) values.
Proof.
  revert w w' values. induction rs as [|r rs IH]; intros w w' values; simpl.
  - run. intros E. inversion E; subst. split; [reflexivity|constructor].
  - run. destruct (py_get r "ts") as [ts|e]; simpl; [|discriminate].
    destruct (Scd41.created_at_of ts w) as [[t|e] w1]; simpl; [|discriminate].
    destruct (py_get r "co2") as [co2|e]; simpl; [|discriminate].
    destruct (py_get r "temp") as [temp|e]; simpl; [|discriminate].
    destruct (py_get r "humidity") as [hum|e]; simpl; [|discriminate].
    destruct (Scd41.batch_values device rs w1) as [[vs|e] w2] eqn:E;
      simpl; [|discriminate].
    intros E'. inversion E'; subst. apply IH in E. destruct E as [El Ef].
    split; [simpl; congruence|]. constructor; [reflexivity|assumption].
Qed.

(** One [executemany] appends one row per parameter tuple, in order,
    and nothing else. *)
Lemma executemany_appends
    (values : list (json * json * json * json * datetime)) (w w' : world) :
  executemany_insert_readings values w = (Ok tt, w') ->
  exists rows,
    Forall2 stored_as values rows
    /\ readings (store w') = readings (store w) ++ rows
    /\ sensor_events (store w') = sensor_events (store w)
    /\ db_fault w' = db_fault w.
Proof.
  revert w. induction values as [|[[[[d c] t] h] ts] values IH]; intros w; simpl.
  - run. intros E. inversion E; subst. exists []. rewrite app_nil_r.
    repeat split; constructor.
  - unfold insert_reading. run.
    destruct (adapt_text d) as [d'|e] eqn:Ed; simpl; [|discriminate].
    destruct (adapt_int c) as [c'|e] eqn:Ec; simpl; [|discriminate].
    destruct (adapt_num t) as [t'|e] eqn:Et; simpl; [|discriminate].
    destruct (adapt_num h) as [h'|e] eqn:Eh; simpl; [|discriminate].
    unfold append_reading. intros E. apply IH in E.
    destruct E as (rows & Hrows & Hr & He & Hf). simpl in *.
    exists (mkReading d' c' t' h' ts :: rows). repeat split.
    + constructor; [|assumption]. unfold stored_as. simpl.
      repeat split; assumption.
    + rewrite Hr, <- app_assoc. reflexivity.
    + assumption.
    + assumption.
Qed.
End BatchFacts.

Section BatchOutcome.
Context {P : Platform}.

Lemma stored_as_device (device : json)
    (values : list (json * json * json * json * datetime)) (rows : list Reading) :
  Forall (fun v => value_device v = device) values ->
  Forall2 stored_as values rows ->
  Forall (fun r => adapt_text device = Ok (rd_device r)) rows.
Proof.
  intros Hd H. induction H as [|v r values rows Hv _ IH].
  - constructor.
  - inversion Hd as [|? ? Hv' Hd']; subst. constructor; [|apply IH, Hd'].
    destruct v as [[[[d c] t] h] ts]. simpl in *. apply Hv.
Qed.

Lemma batch_section_outcome (device rdgs : json) (w : world) :
  truthy rdgs = true ->
  batch_committed device rdgs w (batch_section device rdgs w)
  \/ batch_failed w (batch_section device rdgs w).
Proof.
  intros Ht. unfold batch_section. run.
  destruct (db_fault w) as [msg|] eqn:Ef; simpl.
  { right. exists msg. split; reflexivity. }
  destruct rdgs as [| | | |s|rs|kv]; simpl; try (failed).
  - destruct s as [|c s]; [discriminate|]. simpl. failed.
  - destruct (Scd41.batch_values device rs w) as [[values|e] w1] eqn:Ev; simpl;
      [|failed].
    destruct (executemany_insert_readings values w1) as [[[]|e] w2] eqn:Ex; simpl;
      [|failed].
    left. pose proof (batch_values_store device rs w) as [Hs Hf].
    rewrite Ev in Hs, Hf. simpl in Hs, Hf.
    pose proof (batch_values_shape _ _ _ _ _ Ev) as [Hlen Hdev].
    pose proof (executemany_appends _ _ _ Ex) as (rows & Hrows & Hr & He & _).
    exists rs, values, w1, rows. simpl.
    repeat split; try assumption.
    + rewrite <- (Forall2_length Hrows). exact Hlen.
    + eapply stored_as_device; eassumption.
    + rewrite Hr, Hs. reflexivity.
    + rewrite He, Hs. reflexivity.
  - destruct kv as [|[k v] kv]; [discriminate|]. simpl. failed.
Qed.

(** How [receive_batch] answers: a validation error, an exception
    that leaves the handler (the body is not a dict), or the guarded
    section. *)
Lemma receive_batch_cases (data : json) (w : world) :
  (exists msg, Scd41.receive_batch data w = (Ok (error_body msg, 400), w))
  \/ (exists e, Scd41.receive_batch data w = (Raise e, w))
  \/ (exists device rdgs,
        py_get data "device" = Ok device /\ truthy device = true
        /\ py_get_default data "readings" (JArr []) = Ok rdgs
        /\ truthy rdgs = true
        /\ Scd41.receive_batch data w = batch_section device rdgs w).
Proof.
  unfold Scd41.receive_batch.
  destruct (truthy data) eqn:Hd; simpl; [|left; eexists; reflexivity].
  run. destruct (py_get data "device") as [device|e] eqn:Ed; simpl;
    [|right; left; eexists; reflexivity].
  destruct (py_get_default data "readings" (JArr [])) as [rdgs|e] eqn:Er; simpl;
    [|right; left; eexists; reflexivity].
  destruct (truthy device) eqn:Htd; simpl; [|left; eexists; reflexivity].
  destruct (truthy rdgs) eqn:Htr; simpl; [|left; eexists; reflexivity].
  right; right. exists device, rdgs. repeat split; try assumption; reflexivity.
Qed.
End BatchOutcome.

Section BatchTimestamps.
Context {P : Platform}.

Lemma created_at_of_tick (ts : json) (w : world) :
  (tick w <= tick (snd (Scd41.created_at_of ts w)))%nat.
Proof.
  unfold Scd41.created_at_of. destruct (truthy ts); [|simpl; lia].
  run. destruct (py_replace_Z ts) as [s|e]; simpl.
  - destruct (py_fromisoformat s) as [t|e]; simpl; [lia|].
    destruct (is_ValueError e); simpl; lia.
  - destruct (is_ValueError e); simpl; lia.
Qed.

Lemma batch_values_tick (device : json) (rs : list json) (w : world) :
  (tick w <= tick (snd (Scd41.batch_values device rs w)))%nat.
Proof.
  revert w. induction rs as [|r rs IH]; intros w; simpl; [lia|].
  run. destruct (py_get r "ts") as [ts|e]; simpl; [|lia].
  pose proof (created_at_of_tick ts w) as Ht.
  destruct (Scd41.created_at_of ts w) as [[t|e] w1]; simpl in *; [|lia].
  destruct (py_get r "co2") as [co2|e]; simpl; [|lia].
  destruct (py_get r "temp") as [temp|e]; simpl; [|lia].
  destruct (py_get r "humidity") as [hum|e]; simpl; [|lia].
  specialize (IH w1).
  destruct (Scd41.batch_values device rs w1) as [[vs|e] w2]; simpl in *; lia.
Qed.

Lemma timestamp_settled_wider (w0 w w' w1 : world) (r : json)
    (v : json * json * json * json * datetime) :
  (tick w0 <= tick w)%nat -> (tick w' <= tick w1)%nat ->
  timestamp_settled w w' r v -> timestamp_settled w0 w1 r v.
Proof.
  unfold timestamp_settled. intros H0 H1.
  destruct (py_get r "ts") as [[| | | |[|c s]| |]|e];
    try (intros (k & Hk & E); exists k; split; [lia|exact E]).
  destruct (fromisoformat _); [tauto|].
  intros (k & Hk & E); exists k; split; [lia|exact E].
Qed.

(** The timestamp rule on the entries the loop is written for.  When
    every entry of the array is a dict whose [ts] is a string or is
    absent, the loop builds one row per entry and raises nothing: the
    row carries the parsed [ts] when there is one and it parses, and a
    reading of the clock made during the request otherwise. *)
Lemma batch_values_timestamps (device : json) (rs : list json) (w : world) :
  Forall ts_is_text rs ->
  exists values w',
    Scd41.batch_values device rs w = (Ok values, w')
    /\ Forall2 (timestamp_settled w w') rs values.
Proof.
  intros H. revert w. induction H as [|r rs Hr _ IH]; intros w.
  - exists [], w. split; [reflexivity|constructor].
  - destruct Hr as (ts & Hts & Hcase).
    assert (Hdict : exists kv, r = JObj kv).
    { destruct r; try discriminate. eauto. }
    destruct Hdict as [kv ->].
    assert (Ets : match assoc "ts" kv with Some v => v | None => JNull end = ts).
    { simpl in Hts. congruence. }
    assert (Hone : exists t w1,
               Scd41.created_at_of ts w = (Ok t, w1)
               /\ match ts with
                  | JStr (String c s) =>
                      match fromisoformat
                              (replace_char "Z"%char "+00:00" (String c s)) with
                      | Some t' => t = t'
                      | None => t = clock (tick w) /\ (tick w < tick w1)%nat
                      end
                  | _ => t = clock (tick w) /\ (tick w < tick w1)%nat
                  end).
    { destruct Hcase as [Hf|[s ->]].
      - rewrite (created_at_of_absent ts w Hf).
        do 2 eexists. split; [reflexivity|].
        destruct ts as [| | | |[|c s]| |]; try (split; [reflexivity|simpl; lia]).
        discriminate.
      - destruct s as [|c s].
        + rewrite (created_at_of_absent (JStr "") w eq_refl).
          do 2 eexists. split; [reflexivity|split; [reflexivity|simpl; lia]].
        + destruct (fromisoformat (replace_char "Z"%char "+00:00" (String c s)))
            as [t|] eqn:Ep.
          * rewrite (created_at_of_parsed (String c s) t w ltac:(discriminate) Ep).
            do 2 eexists. split; reflexivity.
          * rewrite (created_at_of_unparsed (String c s) w ltac:(discriminate) Ep).
            do 2 eexists. split; [reflexivity|split; [reflexivity|simpl; lia]]. }
    destruct Hone as (t & w1 & E1 & Hset).
    destruct (IH w1) as (values & w' & E2 & Hall).
    pose proof (batch_values_tick device rs w1) as Hle'.
    rewrite E2 in Hle'. simpl in Hle'.
    pose proof (created_at_of_tick ts w) as Hle.
    rewrite E1 in Hle. simpl in Hle.
    exists ((device,
             match assoc "co2" kv with Some v => v | None => JNull end,
             match assoc "temp" kv with Some v => v | None => JNull end,
             match assoc "humidity" kv with Some v => v | None => JNull end,
             t) :: values), w'.
    split.
    + simpl. run. rewrite Ets, E1. simpl. rewrite E2. reflexivity.
    + constructor.
      * unfold timestamp_settled. simpl. rewrite Ets.
        assert (Hk : t = clock (tick w) /\ (tick w < tick w1)%nat ->
                     exists k, (tick w <= k < tick w')%nat /\ t = clock k).
        { intros [-> Hlt]. exists (tick w). split; [lia|reflexivity]. }
        destruct ts as [| | | |[|c s]| |]; try (apply Hk, Hset).
        destruct (fromisoformat _); [exact Hset|apply Hk, Hset].
      * eapply Forall2_impl; [|exact Hall].
        intros r v. apply timestamp_settled_wider; lia.
Qed.
End BatchTimestamps.

(* ================================================================= *)
(** ** When a batch is committed *)

Section BatchAccepted.
Context {P : Platform}.

Lemma Forall2_compose {A B C : Type} (R : A -> B -> Prop) (S : B -> C -> Prop)
    (T : A -> C -> Prop) (la : list A) (lb : list B) (lc : list C) :
  (forall a b c, R a b -> S b c -> T a c) ->
  Forall2 R la lb -> Forall2 S lb lc -> Forall2 T la lc.
Proof.
  intros H HR. revert lc. induction HR as [|a b la lb Hab _ IH]; intros lc HS.
  - inversion HS. constructor.
  - inversion HS as [|? c ? lc' Hbc HS']; subst.
    constructor; [eapply H; eassumption|apply IH, HS'].
Qed.

(** A loop that ends without an exception met only entries whose [ts]
    is a string or falsy. *)
Lemma batch_values_ok_text (device : json) (rs : list json) (w w' : world)
    (values : list (json * json * json * json * datetime)) :
  Scd41.batch_values device rs w = (Ok values, w') -> Forall ts_is_text rs.
Proof.
  revert w w' values. induction rs as [|r rs IH]; intros w w' values; simpl.
  - intros _. constructor.
  - run. destruct (py_get r "ts") as [ts|e] eqn:Ets; simpl; [|discriminate].
    destruct (Scd41.created_at_of ts w) as [[t|e] w1] eqn:Ec; simpl;
      [|discriminate].
    destruct (py_get r "co2") as [co2|e]; simpl; [|discriminate].
    destruct (py_get r "temp") as [temp|e]; simpl; [|discriminate].
    destruct (py_get r "humidity") as [hum|e]; simpl; [|discriminate].
    destruct (Scd41.batch_values device rs w1) as [[vs|e] w2] eqn:E;
      simpl; [|discriminate].
    intros _. constructor; [|eapply IH; exact E].
    exists ts. split; [exact Ets|].
    destruct (truthy ts) eqn:Ht; [|left; reflexivity]. right.
    destruct ts as [| | | |s| |]; try (eexists; reflexivity); exfalso;
      (rewrite (created_at_of_not_str _ w Ht) in Ec;
       [discriminate Ec|intros s' Hs; discriminate Hs]).
Qed.

(** What a 200 of the guarded section of a batch tells. *)
Lemma batch_section_success (device rdgs body : json) (w w' : world) :
  truthy rdgs = true ->
  batch_section device rdgs w = (Ok (body, 200), w') ->
  exists rs values w1,
    rdgs = JArr rs
    /\ Scd41.batch_values device rs w = (Ok values, w1)
    /\ executemany_insert_readings values w1 = (Ok tt, w').
Proof.
  intros Ht. unfold batch_section. run.
  destruct (db_fault w); simpl; [discriminate|].
  destruct rdgs as [| | | |s|rs|kv]; simpl; try discriminate.
  - destruct s as [|c s]; [discriminate Ht|]. simpl. discriminate.
  - destruct (Scd41.batch_values device rs w) as [[values|e] w1] eqn:Ev;
      simpl; [|discriminate].
    destruct (executemany_insert_readings values w1) as [[[]|e] w2] eqn:Ex;
      simpl; [|discriminate].
    intros H. inversion H; subst. exists rs, values, w1. auto.
  - destruct kv as [|[k v] kv]; [discriminate Ht|]. simpl. discriminate.
Qed.

(** A 200 of the guarded section was given by a reachable database. *)
Lemma batch_section_reachable (device rdgs body : json) (w w' : world) :
  batch_section device rdgs w = (Ok (body, 200), w') -> db_fault w = None.
Proof.
  unfold batch_section. run.
  destruct (db_fault w); simpl; [discriminate|reflexivity].
Qed.

(** The loop builds, for each entry, the tuple of the device and the
    entry's three members. *)
Lemma batch_values_entries (device : json) (rs : list json) (w w' : world)
    (values : list (json * json * json * json * datetime)) :
  Scd41.batch_values device rs w = (Ok values, w') ->
  Forall2 (entry_value device) rs values.
Proof.
  revert w w' values. induction rs as [|r rs IH]; intros w w' values; simpl.
  - run. intros E. inversion E. constructor.
  - run. destruct r as [| | | | | |kv]; simpl; try discriminate.
    destruct (Scd41.created_at_of _ w) as [[t|e] w1]; simpl; [|discriminate].
    destruct (Scd41.batch_values device rs w1) as [[vs|e] w2] eqn:E;
      simpl; [|discriminate].
    intros H. inversion H; subst. constructor; [|eapply IH; exact E].
    exists kv. split; reflexivity.
Qed.

(** [executemany] succeeds on parameters the storage accepts. *)
Lemma executemany_accepts
    (values : list (json * json * json * json * datetime)) (w : world) :
  Forall value_accepted values ->
  exists w', executemany_insert_readings values w = (Ok tt, w').
Proof.
  intros H. revert w. induction H as [|v values Hv _ IH]; intros w; simpl.
  - exists w. reflexivity.
  - destruct v as [[[[d c] t] h] ts].
    destruct Hv as ([d' Ed] & [c' Ec] & [t' Et] & [h' Eh]).
    unfold insert_reading. run. rewrite Ed. simpl. rewrite Ec. simpl.
    rewrite Et. simpl. rewrite Eh. simpl. unfold append_reading.
    destruct (IH (set_store
                    (mkDb (readings (store w) ++ [mkReading d' c' t' h' ts])
                       (sensor_events (store w))) w)) as [w' E].
    exists w'. exact E.
Qed.

(** The tuples of accepted entries are accepted. *)
Lemma accepted_entries_values (device : json) (rs : list json)
    (values : list (json * json * json * json * datetime)) :
  (exists d, adapt_text device = Ok d) ->
  Forall entry_accepted rs ->
  Forall2 (entry_value device) rs values ->
  Forall value_accepted values.
Proof.
  intros Hd Hall H. induction H as [|r v rs values Hrv _ IH].
  - constructor.
  - inversion Hall as [|? ? Hr Hrs]; subst.
    constructor; [|apply IH, Hrs].
    destruct Hrv as (kv & -> & Hv).
    destruct Hr as (_ & kv' & Hkv & Hc & Ht & Hh).
    inversion Hkv; subst kv'. rewrite Hv. simpl. auto.
Qed.

(** The entries of stored tuples were accepted. *)
Lemma stored_entries_accepted (device : json) (rs : list json)
    (values : list (json * json * json * json * datetime))
    (rows : list Reading) :
  Forall ts_is_text rs ->
  Forall2 (entry_value device) rs values ->
  Forall2 stored_as values rows ->
  Forall entry_accepted rs
  /\ (rs <> [] -> exists d, adapt_text device = Ok d).
Proof.
  intros Ht H. revert rows.
  induction H as [|r v rs values Hrv _ IH]; intros rows Hst.
  - split; [constructor|]. intros Hne. contradiction.
  - inversion Ht as [|? ? Hr Hrs]; subst.
    inversion Hst as [|? row ? rows' Hvrow Hst']; subst.
    destruct (IH Hrs rows' Hst') as [Hacc _].
    destruct Hrv as (kv & -> & Hv). rewrite Hv in Hvrow.
    destruct Hvrow as (H1 & H2 & H3 & H4 & _).
    split.
    + constructor; [|exact Hacc].
      split; [exact Hr|]. exists kv. split; [reflexivity|].
      repeat split; eexists; eassumption.
    + intros _. eexists. exact H1.
Qed.

(** An accepted batch is answered 200. *)
Lemma batch_accepted_success (device rdgs : json) (w : world) :
  batch_accepted device rdgs w ->
  exists body w', batch_section device rdgs w = (Ok (body, 200), w').
Proof.
  intros (Hf & Hd & rs & -> & Hall).
  assert (Ht : Forall ts_is_text rs).
  { eapply Forall_impl; [|exact Hall]. intros r Hr. apply Hr. }
  destruct (batch_values_timestamps device rs w Ht) as (values & w1 & Ev & _).
  pose proof (batch_values_entries _ _ _ _ _ Ev) as Hent.
  destruct (executemany_accepts values w1
              (accepted_entries_values device rs values Hd Hall Hent))
    as [w' Ex].
  unfold batch_section. run. rewrite Hf. simpl. rewrite Ev. simpl.
  rewrite Ex. simpl. do 2 eexists. reflexivity.
Qed.

(** A batch answered 200 was accepted. *)
Lemma batch_success_accepted (device rdgs body : json) (w w' : world) :
  truthy rdgs = true ->
  batch_section device rdgs w = (Ok (body, 200), w') ->
  batch_accepted device rdgs w.
Proof.
  intros Htr H.
  pose proof (batch_section_reachable _ _ _ _ _ H) as Hf.
  destruct (batch_section_success device rdgs body w w' Htr H)
    as (rs & values & w1 & -> & Ev & Ex).
  destruct (executemany_appends _ _ _ Ex) as (rows & Hrows & _).
  destruct (stored_entries_accepted device rs values rows
              (batch_values_ok_text _ _ _ _ _ Ev)
              (batch_values_entries _ _ _ _ _ Ev) Hrows) as [Hacc Hd].
  split; [exact Hf|]. split.
  - apply Hd. intros ->. discriminate Htr.
  - exists rs. split; [reflexivity|exact Hacc].
Qed.
End BatchAccepted.

(* ================================================================= *)
(** ** Batch ingestion: the properties *)

Section BatchClaims.
Context {P : Platform}.

Lemma validated_is_dict (data device : json) :
  py_get data "device" = Ok device -> truthy device = true ->
  truthy data = true.
Proof.
  destruct data as [| | | | | |kv]; try discriminate.
  destruct kv as [|kv0 kv]; [|reflexivity].
  simpl. intros E. inversion E; subst. discriminate.
Qed.

(** C2.  Batch ingestion hands all its rows to one [executemany] on
    the [readings] table, every row under the device of the request,
    and is all-or-nothing.  On a request that passed validation, the
    batch is committed exactly when the database can be reached,
    [readings] is an array of objects whose [ts] is a string or falsy,
    and the storage accepts the device and the [co2], [temp] and
    [humidity] of every entry: the answer is then 200 with [stored]
    the number of entries, and exactly these rows are appended to the
    table.  In every other case the answer is 500 with an [error] body
    and the tables are as they were. *)
Theorem receive_batch_all_or_nothing (data device rdgs : json) (w : world) :
  py_get data "device" = Ok device -> truthy device = true ->
  py_get_default data "readings" (JArr []) = Ok rdgs -> truthy rdgs = true ->
  (batch_accepted device rdgs w
   /\ batch_committed device rdgs w (Scd41.receive_batch data w))
  \/ (~ batch_accepted device rdgs w
      /\ batch_failed w (Scd41.receive_batch data w)).
Proof.
  intros Hd Htd Hr Htr.
  assert (E : Scd41.receive_batch data w = batch_section device rdgs w).
  { unfold Scd41.receive_batch.
    rewrite (validated_is_dict data device Hd Htd). run.
    rewrite Hd, Hr. simpl. rewrite Htd, Htr. reflexivity. }
  rewrite E.
  destruct (batch_section_outcome device rdgs w Htr) as [C|F].
  - left. split; [|exact C].
    destruct C as (rs & values & w1 & rows & _ & Hout & _).
    destruct (batch_section device rdgs w) as [r w'] eqn:Eb.
    simpl in Hout. subst r.
    exact (batch_success_accepted device rdgs _ w w' Htr Eb).
  - right. split; [|exact F]. intros Hacc.
    destruct (batch_accepted_success device rdgs w Hacc) as (body & w' & Eb).
    destruct F as (msg & Hout & _). rewrite Eb in Hout. discriminate Hout.
Qed.

(** C3.  When a batch is answered 200, the request named a non-empty
    device and a non-empty array of readings, the body is
    [{status: "ok", stored: n}] with [n] the length of the array, and
    exactly [n] rows were appended to [readings]. *)
Theorem receive_batch_stored (data body : json) (w w' : world) :
  Scd41.receive_batch data w = (Ok (body, 200), w') ->
  exists device rs rows,
    py_get data "device" = Ok device /\ truthy device = true
    /\ py_get_default data "readings" (JArr []) = Ok (JArr rs) /\ rs <> []
    /\ body = ok_stored (Z.of_nat (List.length rs))
    /\ readings (store w') = readings (store w) ++ rows
    /\ List.length rows = List.length rs.
Proof.
  intros H.
  destruct (receive_batch_cases data w)
    as [[msg E]|[[e E]|(device & rdgs & Hd & Htd & Hr & Htr & E)]];
    rewrite E in H; try discriminate.
  destruct (batch_section_outcome device rdgs w Htr) as [C|F].
  - destruct C as (rs & values & w1 & rows & -> & Hout & _ & _ & _ & _ & Hlen & _ & Hrd & _).
    rewrite H in Hout, Hrd. simpl in Hout, Hrd. inversion Hout; subst.
    exists device, rs, rows. repeat split; try assumption.
    intros ->. discriminate.
  - destruct F as (msg & Hout & _). rewrite H in Hout. discriminate.
Qed.

(** A truthy [ts] that is not a string stops the loop with an
    [AttributeError], which [except ValueError] lets through. *)
Lemma batch_values_not_str (device r ts : json) (rs : list json) (w : world) :
  py_get r "ts" = Ok ts -> truthy ts = true -> (forall s, ts <> JStr s) ->
  Scd41.batch_values device (r :: rs) w = (Raise (no_attribute ts "replace"), w).
Proof.
  intros Hg Ht Hs. simpl. run. rewrite Hg. simpl.
  rewrite (created_at_of_not_str ts w Ht Hs). reflexivity.
Qed.

(** C1, at the input where the handler departs from it.  A batch whose
    second entry carries its [ts] as a number (a Unix time) is refused
    as a whole: the answer is 500 and nothing is stored, although the
    first entry is in order.  [ts.replace] raises [AttributeError],
    which the inner [except ValueError] does not cover; the message is
    that of the exception when the database can be reached. *)
Theorem receive_batch_epoch_ts_rejected (w : world) :
  fst (Scd41.receive_batch Sample.batch_epoch w)
  = Ok (error_body
          match db_fault w with
          | Some msg => msg
          | None => "'int' object has no attribute 'replace'"
          end, 500)
  /\ store (snd (Scd41.receive_batch Sample.batch_epoch w)) = store w.
Proof.
  unfold Scd41.receive_batch, Sample.batch_epoch. run.
  destruct (db_fault w); simpl; [split; reflexivity|].
  run. unfold Scd41.created_at_of, py_fromisoformat. run.
  destruct (fromisoformat "2026-01-16T12:00:00+00:00"); run;
    split; reflexivity.
Qed.

(** C9.  The four handlers the two files share answer alike and
    leave the same world, on every request and every state.  (The
    response is the JSON body and the status; the headers the CORS
    extension adds in one file are outside a handler.) *)
Theorem common_handlers_equivalent (data : json) (w : world) :
  Local.health w = Scd41.health w
  /\ Local.receive_single data w = Scd41.receive_single data w
  /\ Local.receive_batch data w = Scd41.receive_batch data w
  /\ Local.receive_event data w = Scd41.receive_event data w.
Proof.
  repeat split; reflexivity.
Qed.
End BatchClaims.

Lemma receive_batch_all_or_nothing_witness :
  truthy (JStr "office") = true
  /\ batch_accepted (P := Sample.platform) (JStr "office")
       (JArr [JObj [("co2", JInt 700); ("ts", JStr "2026-01-16T12:00:00Z")];
              JObj [("co2", JInt 710)]])
       Sample.empty
  /\ batch_committed (P := Sample.platform) (JStr "office")
       (JArr [JObj [("co2", JInt 700); ("ts", JStr "2026-01-16T12:00:00Z")];
              JObj [("co2", JInt 710)]])
       Sample.empty
       (Scd41.receive_batch (P := Sample.platform) Sample.batch_office Sample.empty).
Proof.
  split; [reflexivity|].
  destruct (receive_batch_all_or_nothing (P := Sample.platform)
              Sample.batch_office (JStr "office")
              (JArr [JObj [("co2", JInt 700);
                           ("ts", JStr "2026-01-16T12:00:00Z")];
                     JObj [("co2", JInt 710)]])
              Sample.empty eq_refl eq_refl eq_refl eq_refl)
    as [[Hacc Hcom]|[_ (msg & Hout & _)]].
  - split; [exact Hacc|exact Hcom].
  - discriminate Hout.
Defined.

(** The same batch on a database that cannot be reached, and a batch
    with an entry the storage refuses ([co2] given as a string), are
    not accepted: both are answered 500 and nothing is stored. *)
Example receive_batch_not_accepted :
  Scd41.receive_batch (P := Sample.platform) Sample.batch_office
    (mkWorld (mkDb [] []) (Some "connection refused") 0)
  = (Ok (error_body "connection refused", 500),
     mkWorld (mkDb [] []) (Some "connection refused") 0)
  /\ store (snd (Scd41.receive_batch (P := Sample.platform)
                   (JObj [("device", JStr "office");
                          ("readings",
                           JArr [JObj [("co2", JInt 700)];
                                 JObj [("co2", JStr "high")]])])
                   Sample.empty))
     = store Sample.empty
  /\ exists msg,
       fst (Scd41.receive_batch (P := Sample.platform)
              (JObj [("device", JStr "office");
                     ("readings",
                      JArr [JObj [("co2", JInt 700)];
                            JObj [("co2", JStr "high")]])])
              Sample.empty)
       = Ok (error_body msg, 500).
Proof.
  split; [reflexivity|]. split; [reflexivity|]. eexists. reflexivity.
Qed.

Lemma receive_batch_stored_witness :
  Scd41.receive_batch (P := Sample.platform) Sample.batch_office Sample.empty
  = (Ok (ok_stored 2, 200),
     mkWorld
       (mkDb [mkReading "office" (Some 700) None None Sample.noon;
              mkReading "office" (Some 710) None None (Sample.clock 0)]
             [])
       None 1)
  /\ exists device rs rows,
       py_get Sample.batch_office "device" = Ok device /\ truthy device = true
       /\ py_get_default Sample.batch_office "readings" (JArr []) = Ok (JArr rs)
       /\ rs <> []
       /\ ok_stored 2 = ok_stored (Z.of_nat (List.length rs))
       /\ [mkReading "office" (Some 700) None None Sample.noon;
           mkReading "office" (Some 710) None None (Sample.clock 0)]
          = readings (store Sample.empty) ++ rows
       /\ List.length rows = List.length rs.
Proof.
  split; [reflexivity|].
  apply (receive_batch_stored (P := Sample.platform) Sample.batch_office
           (ok_stored 2) Sample.empty
           (mkWorld
              (mkDb [mkReading "office" (Some 700) None None Sample.noon;
                     mkReading "office" (Some 710) None None (Sample.clock 0)]
                    [])
              None 1)).
  reflexivity.
Defined.

(** The usage example: two entries, the first stamped by the device,
    the second by the clock. *)
Example receive_batch_office :
  Scd41.receive_batch (P := Sample.platform) Sample.batch_office Sample.empty
  = (Ok (ok_stored 2, 200),
     mkWorld
       (mkDb [mkReading "office" (Some 700) None None Sample.noon;
              mkReading "office" (Some 710) None None (Sample.clock 0)]
             [])
       None 1).
Proof. reflexivity. Qed.

(** A batch whose second row the storage refuses leaves no row behind,
    the first included. *)
Example receive_batch_rolls_back :
  Scd41.receive_batch (P := Sample.platform)
    (JObj [("device", JStr "office");
           ("readings", JArr [JObj [("co2", JInt 700)];
                              JObj [("co2", JStr "high")]])])
    Sample.office
  = (Ok (error_body "cannot store a str as integer", 500),
     mkWorld (store Sample.office) None 2).
Proof. reflexivity. Qed.

(** A body that is a list has no [get]: the exception leaves the
    handler before any response is built. *)
Example receive_single_list_body :
  Scd41.receive_single (P := Sample.platform) (JArr [JInt 1]) Sample.empty
  = (Raise (AttributeError "'list' object has no attribute 'get'"), Sample.empty).
Proof. reflexivity. Qed.

Example int_of_str_examples :
  map int_of_str ["24"; " 12 "; "+5"; "-3"; "1_000"; "abc"; ""; "1__0"; "12a"; "1.5"]
  = [Some 24; Some 12; Some 5; Some (-3); Some 1000; None; None; None; None; None].
Proof. reflexivity. Qed.

(* ================================================================= *)
(** ** Missing devices and parameters that are not integers *)

Section DispatchClaims.
Context {P : Platform}.

Lemma int_arg_bad (req : Scd41.request) (key : string) (default : Z) :
  bad_int req key ->
  exists msg, int_arg (Scd41.args req) key default = Raise (ValueError msg).
Proof.
  intros (s & Hs & Hbad). unfold int_arg, py_int. rewrite Hs, Hbad.
  eexists. reflexivity.
Qed.

Lemma int_arg_cases (args : list (string * string)) (key : string) (default : Z) :
  (exists z, int_arg args key default = Ok z)
  \/ (exists msg, int_arg args key default = Raise (ValueError msg)).
Proof.
  unfold int_arg, py_int. destruct (args_get args key) as [s|].
  - destruct (int_of_str s); [left|right]; eexists; reflexivity.
  - left. eexists. reflexivity.
Qed.

(** C5, amended.  On every endpoint but the health check, a request
    without a device (the body of a POST being a dict or falsy) is
    answered 400 with [{error: ...}], and the world is untouched. *)
Theorem missing_device_is_400 (ep : Scd41.endpoint) (req : Scd41.request)
    (w : world) :
  ep <> Scd41.GET_health ->
  (is_post ep = true ->
   is_dict (Scd41.body req) = true \/ truthy (Scd41.body req) = false) ->
  device_missing ep req = true ->
  exists msg, Scd41.dispatch ep req w = (Ok (error_body msg, 400), w).
Proof.
  intros Hep Hbody Hmiss. destruct req as [data args].
  destruct ep; simpl in *; try congruence.
  - unfold Scd41.receive_single.
    destruct (truthy data) eqn:Ht; simpl; [|eexists; reflexivity].
    destruct Hbody as [Hd|Hf]; try reflexivity; try discriminate.
    destruct data; try discriminate. run.
    destruct (negb (truthy _)); [|discriminate]. eexists. reflexivity.
  - unfold Scd41.receive_batch.
    destruct (truthy data) eqn:Ht; simpl; [|eexists; reflexivity].
    destruct Hbody as [Hd|Hf]; try reflexivity; try discriminate.
    destruct data; try discriminate. run.
    destruct (negb (truthy _)); [|discriminate]. eexists. reflexivity.
  - unfold Scd41.receive_event.
    destruct (truthy data) eqn:Ht; simpl; [|eexists; reflexivity].
    destruct Hbody as [Hd|Hf]; try reflexivity; try discriminate.
    destruct data; try discriminate. run.
    destruct (negb (truthy _)); [|discriminate]. eexists. reflexivity.
  - unfold Scd41.get_readings.
    destruct (args_get args "device") as [[|c s]|]; try discriminate;
      eexists; reflexivity.
  - unfold Scd41.get_events.
    destruct (args_get args "device") as [[|c s]|]; try discriminate;
      eexists; reflexivity.
  - unfold Scd41.get_last_calibration.
    destruct (args_get args "device") as [[|c s]|]; try discriminate;
      eexists; reflexivity.
  - unfold Scd41.get_stats.
    destruct (args_get args "device") as [[|c s]|]; try discriminate;
      eexists; reflexivity.
Qed.

(** The calibration query converts nothing: it always answers. *)
Lemma get_last_calibration_answers (args : list (string * string)) (w : world) :
  exists r, fst (Scd41.get_last_calibration args w) = Ok r.
Proof.
  unfold Scd41.get_last_calibration.
  destruct (args_get args "device") as [[|c s]|];
    try (eexists; reflexivity).
  run. destruct (db_fault w); simpl; [eexists; reflexivity|].
  unfold select_last_calibration.
  destruct (text_param _ _); simpl; [|eexists; reflexivity].
  destruct (sql_order_by _ _ _); simpl; eexists; reflexivity.
Qed.

(** C10, amended.  On each of the three query endpoints that convert
    a parameter (readings, events, stats), a request with a device
    and an [hours] that is not an integer (for events, also a [limit]
    that is not one) makes [int] raise [ValueError] outside the
    guarded section: the exception leaves the handler, no response is
    built, and the world is untouched. *)
Theorem int_conversion_escapes (ep : Scd41.endpoint) (req : Scd41.request)
    (w : world) :
  In ep converting_endpoints ->
  bad_int_request ep req ->
  exists msg, Scd41.dispatch ep req w = (Raise (ValueError msg), w).
Proof.
  intros Hep [(device & Hd & Hne) Hbad]. destruct req as [data args].
  simpl in *.
  assert (Hdev : exists c s, args_get args "device" = Some (String c s)).
  { destruct device as [|c s]; [contradiction|]. eauto. }
  destruct Hdev as (c & s & Hdev). clear Hd Hne.
  destruct Hep as [<-|[<-|[<-|[]]]]; simpl.
  - destruct Hbad as [Hh|[Hc _]]; [|discriminate].
    apply (int_arg_bad _ _ 24) in Hh. destruct Hh as [msg Hh]. simpl in Hh.
    unfold Scd41.get_readings. rewrite Hdev. run. rewrite Hh. simpl.
    eexists. reflexivity.
  - unfold Scd41.get_events. rewrite Hdev. run.
    destruct Hbad as [Hh|[_ Hl]].
    + apply (int_arg_bad _ _ 24) in Hh. destruct Hh as [msg Hh]. simpl in Hh.
      rewrite Hh. simpl. eexists. reflexivity.
    + apply (int_arg_bad _ _ 50) in Hl. destruct Hl as [msg Hl]. simpl in Hl.
      rewrite Hl.
      destruct (int_arg_cases args "hours" 24) as [[h Hh]|[msg' Hh]];
        rewrite Hh; simpl; eexists; reflexivity.
  - destruct Hbad as [Hh|[Hc _]]; [|discriminate].
    apply (int_arg_bad _ _ 24) in Hh. destruct Hh as [msg Hh]. simpl in Hh.
    unfold Scd41.get_stats. rewrite Hdev. run. rewrite Hh. simpl.
    eexists. reflexivity.
Qed.
End DispatchClaims.

(** C5 as worded fails on the health check, which reads no device: on
    a reachable database it answers 200. *)
Lemma health_without_device :
  device_missing Scd41.GET_health (Scd41.mkRequest JNull []) = true
  /\ fst (Scd41.dispatch (P := Sample.platform) Scd41.GET_health
            (Scd41.mkRequest JNull []) Sample.empty)
     = Ok (JObj [("status", JStr "ok"); ("database", JStr "connected")], 200)
  /\ ~ missing_device_always_400 Sample.platform.
Proof.
  split; [reflexivity|]. split; [reflexivity|].
  intros H.
  destruct (H Scd41.GET_health (Scd41.mkRequest JNull []) Sample.empty eq_refl)
    as (body & E & _).
  discriminate E.
Qed.

Lemma missing_device_is_400_witness :
  Scd41.POST_api_sensor_batch <> Scd41.GET_health
  /\ exists msg,
       Scd41.dispatch (P := Sample.platform) Scd41.POST_api_sensor_batch
         (Scd41.mkRequest (JObj [("readings", JArr [JObj [("co2", JInt 700)]])]) [])
         Sample.empty
       = (Ok (error_body msg, 400), Sample.empty).
Proof.
  split; [discriminate|].
  apply (missing_device_is_400 (P := Sample.platform) Scd41.POST_api_sensor_batch
           (Scd41.mkRequest (JObj [("readings", JArr [JObj [("co2", JInt 700)]])]) [])
           Sample.empty).
  - discriminate.
  - intros _. left. reflexivity.
  - reflexivity.
Defined.

(** C10 as worded fails on the calibration query, which has no [hours]
    and no [limit]: with [hours=abc] it answers [{date: null}]. *)
Lemma calibration_ignores_hours :
  fst (Scd41.dispatch (P := Sample.platform) Scd41.GET_api_sensor_calibration
         (Scd41.mkRequest JNull [("device", "office"); ("hours", "abc")])
         Sample.empty)
  = Ok (JObj [("date", JNull)], 200)
  /\ ~ every_query_endpoint_escapes Sample.platform.
Proof.
  split; [reflexivity|].
  intros H.
  destruct (H Scd41.GET_api_sensor_calibration) as (req & w & e & _ & E).
  { simpl. tauto. }
  destruct (get_last_calibration_answers (P := Sample.platform) (Scd41.args req) w)
    as [r Hr].
  simpl in E. rewrite Hr in E. discriminate E.
Qed.

Lemma int_conversion_escapes_witness :
  bad_int_request Scd41.GET_api_sensor_stats
    (Scd41.mkRequest JNull [("device", "office"); ("hours", "abc")])
  /\ exists msg,
       Scd41.dispatch (P := Sample.platform) Scd41.GET_api_sensor_stats
         (Scd41.mkRequest JNull [("device", "office"); ("hours", "abc")])
         Sample.empty
       = (Raise (ValueError msg), Sample.empty).
Proof.
  assert (H : bad_int_request Scd41.GET_api_sensor_stats
                (Scd41.mkRequest JNull [("device", "office"); ("hours", "abc")])).
  { split.
    - exists "office". split; [reflexivity|discriminate].
    - left. exists "abc". split; reflexivity. }
  split; [exact H|].
  apply (int_conversion_escapes (P := Sample.platform)); [simpl; tauto|exact H].
Defined.

(* ================================================================= *)
(** ** The readings and events queries *)

Section QueryClaims.
Context {P : Platform}.




Lemma cutoff_of_ok (w : world) (h : Z) (cutoff : datetime) :
  window w h cutoff -> Scd41.cutoff_of h w = (Ok cutoff, advance w).
Proof.
  intros (delta & Hd & Hs). unfold Scd41.cutoff_of. run.
  rewrite Hd. simpl. rewrite Hs. reflexivity.
Qed.

Lemma device_given (args : list (string * string)) (device : string) :
  args_get args "device" = Some device -> device <> "" ->
  exists c s, device = String c s.
Proof.
  intros _ H. destruct device as [|c s]; [contradiction|eauto].
Qed.



Lemma reading_json_object (rows : list Reading) :
  map Scd41.reading_json (map reading_row rows) = map reading_object rows.
Proof.
  rewrite map_map. apply map_ext. intros r. reflexivity.
Qed.

Lemma event_json_object (rows : list SensorEvent) :
  map Scd41.event_json (map event_row rows) = map event_object rows.
Proof.
  rewrite map_map. apply map_ext. intros r. reflexivity.
Qed.


End QueryClaims.





(* ================================================================= *)
(** ** The calibration query *)

Section Calibration.
Context {P : Platform}.

Lemma prefix_app (p s : string) :
  String.prefix p s = true <-> exists post, s = (p ++ post)%string.
Proof.
  revert s. induction p as [|a p IH]; intros s.
  - split; [intros _; exists s; reflexivity|].
    intros _. destruct s; reflexivity.
  - destruct s as [|b s]; simpl.
    + split; [discriminate|]. intros [post E]. discriminate.
    + destruct (ascii_dec a b) as [->|Hne].
      * split.
        -- intros H. apply IH in H. destruct H as [post ->]. exists post. reflexivity.
        -- intros [post E]. inversion E. apply IH. exists post. reflexivity.
      * split; [discriminate|]. intros [post E]. inversion E. congruence.
Qed.

Lemma like_contains_eq (pat s : string) :
  like_contains pat s
  = String.prefix pat s
    || match s with
       | EmptyString => false
       | String _ s' => like_contains pat s'
       end.
Proof.
  destruct s; reflexivity.
Qed.

Lemma like_contains_app (pat s : string) :
  like_contains pat s = true
  <-> exists pre post, s = (pre ++ pat ++ post)%string.
Proof.
  induction s as [|c s IH]; rewrite like_contains_eq, orb_true_iff, prefix_app.
  - split.
    + intros [[post E]|H]; [|discriminate]. exists "", post. exact E.
    + intros (pre & post & E). left.
      destruct pre; [exists post; exact E|discriminate].
  - rewrite IH. split.
    + intros [[post E]|(pre & post & E)].
      * exists "", post. exact E.
      * exists (String c pre), post. simpl. rewrite E. reflexivity.
    + intros (pre & post & E). destruct pre as [|c' pre].
      * left. exists post. exact E.
      * right. simpl in E. inversion E. exists pre, post. reflexivity.
Qed.

Lemma lower_app (a b : string) :
  lower (a ++ b) = (lower a ++ lower b)%string.
Proof.
  induction a as [|c a IH]; simpl; [reflexivity|]. rewrite IH. reflexivity.
Qed.

Lemma lower_split (s a b : string) :
  lower s = (a ++ b)%string ->
  exists s1 s2, s = (s1 ++ s2)%string /\ lower s1 = a /\ lower s2 = b.
Proof.
  revert s. induction a as [|c a IH]; intros s E.
  - exists "", s. repeat split. exact E.
  - destruct s as [|d s]; [discriminate|]. simpl in E. inversion E as [[Hc Hs]].
    destruct (IH s Hs) as (s1 & s2 & -> & H1 & H2).
    exists (String d s1), s2. simpl. repeat split; congruence.
Qed.

(** [LOWER(message) LIKE '%calibrat%'] is containment without regard
    to case. *)
Lemma like_lower_contains_ci (pat s : string) :
  like_contains (lower pat) (lower s) = true <-> contains_ci pat s.
Proof.
  rewrite like_contains_app. unfold contains_ci. split.
  - intros (pre & post & E).
    destruct (lower_split _ _ _ E) as (s1 & s2 & -> & H1 & H2).
    destruct (lower_split _ _ _ H2) as (s3 & s4 & -> & H3 & H4).
    exists s1, s3, s4. split; [reflexivity|exact H3].
  - intros (pre & mid & post & -> & E).
    exists (lower pre), (lower post). rewrite !lower_app, E. reflexivity.
Qed.

Lemma is_calibration_event (device : string) (e : SensorEvent) :
  is_calibration device e = true <-> calibration_event device e.
Proof.
  unfold is_calibration, calibration_event.
  rewrite andb_true_iff, String.eqb_eq.
  rewrite <- (like_lower_contains_ci "calibrat"). reflexivity.
Qed.

End Calibration.



(* ================================================================= *)
(** ** The stats query *)

Section Stats.
Context {P : Platform}.


End Stats.


(** An aggregate of zero is answered as null as well: the truthiness
    test of [get_stats] does not tell [0.0] from [None], where
    [get_readings] tests [is not None]. *)
Lemma get_stats_zero_is_null :
  fst (Scd41.get_stats (P := Sample.platform) [("device", "shed")] Sample.freezing)
  = Ok (JObj [("count", JInt 1);
              ("co2", JObj [("avg", JFloat (420 # 1)); ("min", JInt 420);
                            ("max", JInt 420)]);
              ("temp", JObj [("avg", JNull); ("min", JNull); ("max", JNull)]);
              ("humidity", JObj [("avg", JFloat (80 # 1)); ("min", JFloat (80 # 1));
                                 ("max", JFloat (80 # 1))])],
        200)
  /\ fst (Scd41.get_readings (P := Sample.platform) [("device", "shed")]
            Sample.freezing)
     = Ok (JArr [JObj [("co2", JInt 420); ("temp", JFloat (0 # 1));
                       ("humidity", JFloat (80 # 1));
                       ("ts", JStr "2026-01-16T12:00:00+00:00")]], 200).
Proof.
  split; reflexivity.
Qed.


(** A device or a type the storage refuses as a parameter (here one
    with a NUL) makes [cur.execute] raise inside the guarded section:
    the readings, events and stats queries answer 500. *)
Example refused_parameter_is_500 :
  fst (Scd41.get_readings (P := Sample.platform)
         [("device", Sample.nul_device)] Sample.office)
  = Ok (error_body "PostgreSQL text fields cannot contain NUL (0x00) bytes", 500)
  /\ fst (Scd41.get_stats (P := Sample.platform)
            [("device", Sample.nul_device)] Sample.office)
     = Ok (error_body "PostgreSQL text fields cannot contain NUL (0x00) bytes",
           500)
  /\ fst (Scd41.get_events (P := Sample.platform)
            [("device", Sample.nul_device)] Sample.office)
     = Ok (error_body "PostgreSQL text fields cannot contain NUL (0x00) bytes",
           500)
  /\ fst (Scd41.get_events (P := Sample.platform)
            [("device", "office"); ("type", Sample.nul_device)] Sample.office)
     = Ok (error_body "PostgreSQL text fields cannot contain NUL (0x00) bytes",
           500)
  /\ ~ reading_device_ok (P := Sample.platform) Sample.office Sample.nul_device.
Proof.
  repeat split; try reflexivity. intros H. discriminate H.
Qed.

(* ================================================================= *)
(** ** Single readings and events *)

Section Ingest.
Context {P : Platform}.

(** [receive_single] on a dict with a device, when the database can be
    reached. *)
Lemma receive_single_dict (kv : list (string * json)) (device : json) (w : world) :
  assoc "device" kv = Some device -> truthy device = true ->
  db_fault w = None ->
  Scd41.receive_single (JObj kv) w
  = match adapt_text device with
    | Raise e => (Ok (error_body (str_exn e), 500), w)
    | Ok d =>
        match adapt_int (get_or kv "co2" JNull) with
        | Raise e => (Ok (error_body (str_exn e), 500), w)
        | Ok c =>
            match adapt_num (get_or kv "temp" JNull) with
            | Raise e => (Ok (error_body (str_exn e), 500), w)
            | Ok t =>
                match adapt_num (get_or kv "humidity" JNull) with
                | Raise e => (Ok (error_body (str_exn e), 500), w)
                | Ok h =>
                    (Ok (status_ok, 200),
                     after_reading w (mkReading d c t h (clock (tick w))))
                end
            end
        end
    end.
Proof.
  intros Hd Ht Hf. unfold Scd41.receive_single, insert_reading, get_or.
  assert (Hkv : truthy (JObj kv) = true).
  { destruct kv; [discriminate|reflexivity]. }
  rewrite Hkv. run. rewrite Hd. simpl. rewrite Ht. simpl. rewrite Hf. simpl.
  destruct (adapt_text device); simpl; [|rewrite world_eta; reflexivity].
  destruct (adapt_int _); simpl; [|rewrite world_eta; reflexivity].
  destruct (adapt_num _); simpl; [|rewrite world_eta; reflexivity].
  destruct (adapt_num _); simpl; [|rewrite world_eta; reflexivity].
  reflexivity.
Qed.

(** X1.  A single reading with a device is stored as one row, or not
    at all: when the storage accepts the four parameters the answer is
    200 [{status: "ok"}] and exactly one row is appended, holding the
    adapted [device], [co2], [temp], [humidity] (an absent member is
    handed over as [None]) and the clock reading of the insertion;
    when it refuses one of them, or cannot be reached, the answer is
    500 with the text of that error and the world is as before. *)
Theorem receive_single_outcome (kv : list (string * json)) (device : json)
    (w : world) :
  assoc "device" kv = Some device -> truthy device = true ->
  (exists d c t h,
      db_fault w = None
      /\ adapt_text device = Ok d
      /\ adapt_int (get_or kv "co2" JNull) = Ok c
      /\ adapt_num (get_or kv "temp" JNull) = Ok t
      /\ adapt_num (get_or kv "humidity" JNull) = Ok h
      /\ Scd41.receive_single (JObj kv) w
         = (Ok (status_ok, 200),
            after_reading w (mkReading d c t h (clock (tick w)))))
  \/ (exists e,
        db_fault w = None
        /\ reading_refused device (get_or kv "co2" JNull) (get_or kv "temp" JNull)
             (get_or kv "humidity" JNull) e
        /\ Scd41.receive_single (JObj kv) w
           = (Ok (error_body (str_exn e), 500), w))
  \/ (exists msg,
        db_fault w = Some msg
        /\ Scd41.receive_single (JObj kv) w = (Ok (error_body msg, 500), w)).
Proof.
  intros Hd Ht. destruct (db_fault w) as [msg|] eqn:Hf.
  - right; right. exists msg. split; [reflexivity|].
    unfold Scd41.receive_single.
    assert (Hkv : truthy (JObj kv) = true).
    { destruct kv; [discriminate|reflexivity]. }
    rewrite Hkv. run. rewrite Hd. simpl. rewrite Ht. simpl. rewrite Hf. reflexivity.
  - rewrite (receive_single_dict kv device w Hd Ht Hf).
    unfold reading_refused.
    destruct (adapt_text device) as [d|e] eqn:E1;
      [|right; left; exists e; intuition auto].
    destruct (adapt_int _) as [c|e] eqn:E2; [|right; left; exists e; intuition auto].
    destruct (adapt_num (get_or kv "temp" JNull)) as [t|e] eqn:E3;
      [|right; left; exists e; intuition auto].
    destruct (adapt_num (get_or kv "humidity" JNull)) as [h|e] eqn:E4;
      [|right; left; exists e; intuition auto].
    left. exists d, c, t, h. intuition auto.
Qed.

Lemma receive_event_dict (kv : list (string * json)) (device : json) (w : world) :
  assoc "device" kv = Some device -> truthy device = true ->
  db_fault w = None ->
  Scd41.receive_event (JObj kv) w
  = match adapt_text device with
    | Raise e => (Ok (error_body (str_exn e), 500), w)
    | Ok d =>
        match adapt_text (get_or kv "event_type" (JStr "info")) with
        | Raise e => (Ok (error_body (str_exn e), 500), w)
        | Ok ty =>
            match adapt_text (get_or kv "message" (JStr "")) with
            | Raise e => (Ok (error_body (str_exn e), 500), w)
            | Ok m =>
                match adapt_int (get_or kv "uptime" JNull) with
                | Raise e => (Ok (error_body (str_exn e), 500), w)
                | Ok u =>
                    (Ok (status_ok, 200),
                     after_event w (mkSensorEvent d ty m u (clock (tick w))))
                end
            end
        end
    end.
Proof.
  intros Hd Ht Hf. unfold Scd41.receive_event, insert_event, get_or.
  assert (Hkv : truthy (JObj kv) = true).
  { destruct kv; [discriminate|reflexivity]. }
  rewrite Hkv. run. rewrite Hd. simpl. rewrite Ht. simpl. rewrite Hf. simpl.
  destruct (adapt_text device); simpl; [|rewrite world_eta; reflexivity].
  destruct (adapt_text _); simpl; [|rewrite world_eta; reflexivity].
  destruct (adapt_text _); simpl; [|rewrite world_eta; reflexivity].
  destruct (adapt_int _); simpl; [|rewrite world_eta; reflexivity].
  reflexivity.
Qed.

(** X2.  An event with a device is stored as one row of
    [sensor_events], or not at all.  The stored type and message are
    those of the body, ["info"] and the empty string standing in only
    for a member that is absent (a member given as null is handed over
    as [None]); the row carries the clock reading of the insertion.
    When the storage refuses a parameter or cannot be reached, the
    answer is 500 with that error and the world is as before. *)
Theorem receive_event_outcome (kv : list (string * json)) (device : json)
    (w : world) :
  assoc "device" kv = Some device -> truthy device = true ->
  (exists d ty m u,
      db_fault w = None
      /\ adapt_text device = Ok d
      /\ adapt_text (get_or kv "event_type" (JStr "info")) = Ok ty
      /\ adapt_text (get_or kv "message" (JStr "")) = Ok m
      /\ adapt_int (get_or kv "uptime" JNull) = Ok u
      /\ Scd41.receive_event (JObj kv) w
         = (Ok (status_ok, 200),
            after_event w (mkSensorEvent d ty m u (clock (tick w)))))
  \/ (exists e,
        db_fault w = None
        /\ event_refused device (get_or kv "event_type" (JStr "info"))
             (get_or kv "message" (JStr "")) (get_or kv "uptime" JNull) e
        /\ Scd41.receive_event (JObj kv) w
           = (Ok (error_body (str_exn e), 500), w))
  \/ (exists msg,
        db_fault w = Some msg
        /\ Scd41.receive_event (JObj kv) w = (Ok (error_body msg, 500), w)).
Proof.
  intros Hd Ht. destruct (db_fault w) as [msg|] eqn:Hf.
  - right; right. exists msg. split; [reflexivity|].
    unfold Scd41.receive_event.
    assert (Hkv : truthy (JObj kv) = true).
    { destruct kv; [discriminate|reflexivity]. }
    rewrite Hkv. run. rewrite Hd. simpl. rewrite Ht. simpl. rewrite Hf. reflexivity.
  - rewrite (receive_event_dict kv device w Hd Ht Hf).
    unfold event_refused.
    destruct (adapt_text device) as [d|e] eqn:E1;
      [|right; left; exists e; intuition auto].
    destruct (adapt_text (get_or kv "event_type" (JStr "info"))) as [ty|e] eqn:E2;
      [|right; left; exists e; intuition auto].
    destruct (adapt_text (get_or kv "message" (JStr ""))) as [m|e] eqn:E3;
      [|right; left; exists e; intuition auto].
    destruct (adapt_int _) as [u|e] eqn:E4; [|right; left; exists e; intuition auto].
    left. exists d, ty, m, u. intuition auto.
Qed.
End Ingest.

(* ================================================================= *)
(** ** What every request leaves behind *)

Section Summary.
Context {P : Platform}.

Lemma error_body_has_error (msg : string) : has_error_field (error_body msg).
Proof.
  exists [("error", JStr msg)], (JStr msg). split; reflexivity.
Qed.

Lemma timedelta_hours_cases (h : Z) :
  (exists delta, timedelta_hours h = Ok delta)
  \/ (exists msg, timedelta_hours h = Raise (OverflowError msg)).
Proof.
  unfold timedelta_hours. destruct (_ <=? _); [left|right]; eexists; reflexivity.
Qed.

Lemma datetime_sub_cases (t delta : Z) :
  (exists r, datetime_sub t delta = Ok r)
  \/ (exists msg, datetime_sub t delta = Raise (OverflowError msg)).
Proof.
  unfold datetime_sub. destruct (_ && _); [left|right]; eexists; reflexivity.
Qed.

(** The cutoff of a query is computed, or an [OverflowError] is
    raised; the clock was read either way. *)
Lemma cutoff_of_cases (h : Z) (w : world) :
  (exists cutoff, Scd41.cutoff_of h w = (Ok cutoff, advance w))
  \/ (exists msg, Scd41.cutoff_of h w = (Raise (OverflowError msg), advance w)).
Proof.
  unfold Scd41.cutoff_of. run.
  destruct (timedelta_hours_cases h) as [[delta E]|[msg E]]; rewrite E; simpl.
  - destruct (datetime_sub_cases (clock (tick w)) delta) as [[r E']|[msg E']];
      rewrite E'; [left|right]; eexists; reflexivity.
  - right. eexists. reflexivity.
Qed.

Ltac conversion_error :=
  apply summary_raise;
  [reflexivity
  |unfold raise_kind, is_conversion_error; simpl; eauto].

Ltac server_error :=
  apply summary_server;
  [reflexivity|left; split; [discriminate|eexists; reflexivity]].

Lemma health_summary (req : Scd41.request) (w : world) :
  summary Scd41.GET_health req w (Scd41.health w).
Proof.
  unfold Scd41.health. run. destruct (db_fault w); simpl.
  - apply summary_server;
      [reflexivity|right; split; [reflexivity|eexists; reflexivity]].
  - apply summary_ok. reflexivity.
Qed.

Lemma get_readings_summary (req : Scd41.request) (w : world) :
  summary Scd41.GET_api_sensor req w (Scd41.get_readings (Scd41.args req) w).
Proof.
  unfold Scd41.get_readings.
  destruct (args_get (Scd41.args req) "device") as [[|c s]|];
    try apply summary_client.
  run.
  destruct (int_arg_cases (Scd41.args req) "hours" 24) as [[h E]|[msg E]];
    rewrite E; simpl; [|conversion_error].
  destruct (cutoff_of_cases h w) as [[cutoff Ec]|[msg Ec]];
    run; rewrite Ec; simpl; [|conversion_error].
  destruct (db_fault w); simpl; [server_error|].
  unfold select_readings.
  destruct (text_param _ _); simpl; [|server_error].
  apply summary_ok. reflexivity.
Qed.

Lemma get_events_summary (req : Scd41.request) (w : world) :
  summary Scd41.GET_api_sensor_log req w (Scd41.get_events (Scd41.args req) w).
Proof.
  unfold Scd41.get_events.
  destruct (args_get (Scd41.args req) "device") as [[|c s]|];
    try apply summary_client.
  run.
  destruct (int_arg_cases (Scd41.args req) "hours" 24) as [[h E]|[msg E]];
    rewrite E; simpl; [|conversion_error].
  destruct (int_arg_cases (Scd41.args req) "limit" 50) as [[n En]|[msg En]];
    rewrite En; simpl; [|conversion_error].
  destruct (cutoff_of_cases h w) as [[cutoff Ec]|[msg Ec]];
    run; rewrite Ec; simpl; [|conversion_error].
  destruct (db_fault w); simpl; [server_error|].
  destruct (args_get (Scd41.args req) "type") as [[|c' s']|]; simpl;
    unfold select_events, select_events_of_type; simpl;
    (destruct (text_param _ _); simpl; [|server_error]);
    try (destruct (text_param _ _); simpl; [|server_error]);
    destruct (fetch_events _); simpl;
    try server_error; apply summary_ok; reflexivity.
Qed.

Lemma get_last_calibration_summary (req : Scd41.request) (w : world) :
  summary Scd41.GET_api_sensor_calibration req w
    (Scd41.get_last_calibration (Scd41.args req) w).
Proof.
  unfold Scd41.get_last_calibration.
  destruct (args_get (Scd41.args req) "device") as [[|c s]|];
    try apply summary_client.
  run. destruct (db_fault w); simpl; [server_error|].
  unfold select_last_calibration.
  destruct (text_param _ _); simpl; [|server_error].
  destruct (sql_order_by _ _ _); simpl; apply summary_ok; reflexivity.
Qed.

Lemma get_stats_summary (req : Scd41.request) (w : world) :
  summary Scd41.GET_api_sensor_stats req w (Scd41.get_stats (Scd41.args req) w).
Proof.
  unfold Scd41.get_stats.
  destruct (args_get (Scd41.args req) "device") as [[|c s]|];
    try apply summary_client.
  run.
  destruct (int_arg_cases (Scd41.args req) "hours" 24) as [[h E]|[msg E]];
    rewrite E; simpl; [|conversion_error].
  destruct (cutoff_of_cases h w) as [[cutoff Ec]|[msg Ec]];
    run; rewrite Ec; simpl; [|conversion_error].
  destruct (db_fault w); simpl; [server_error|].
  unfold select_stats.
  destruct (text_param _ _); simpl; [|server_error].
  destruct (0 <? _); simpl; apply summary_ok; reflexivity.
Qed.

(** The body of a POST is falsy, or has no [get], or is a dict with
    items. *)
Lemma body_cases (data : json) :
  truthy data = false
  \/ (truthy data = true /\ is_dict data = false
      /\ forall k default,
           py_get_default data k default = Raise (no_attribute data "get"))
  \/ (exists kv, data = JObj kv /\ truthy data = true).
Proof.
  destruct (truthy data) eqn:Ht; [|left; reflexivity]. right.
  destruct data; try (left; repeat split; reflexivity).
  right. eexists. split; reflexivity.
Qed.

Ltac no_get H :=
  apply summary_raise;
  [reflexivity|unfold raise_kind; simpl; repeat split; assumption].

Lemma receive_single_summary (req : Scd41.request) (w : world) :
  summary Scd41.POST_api_sensor req w (Scd41.receive_single (Scd41.body req) w).
Proof.
  destruct req as [data args]. simpl. unfold Scd41.receive_single.
  destruct (body_cases data) as [Hf|[(Ht & Hd & Hg)|(kv & -> & Ht)]].
  - rewrite Hf. apply summary_client.
  - rewrite Ht. simpl. run. unfold py_get. rewrite Hg. simpl.
    apply summary_raise; [reflexivity|].
    unfold raise_kind. simpl. repeat split; assumption.
  - rewrite Ht. simpl. run.
    destruct (truthy _); simpl; [|apply summary_client].
    destruct (db_fault w); simpl; [server_error|].
    unfold insert_reading. run.
    destruct (adapt_text _); simpl; [|server_error].
    destruct (adapt_int _); simpl; [|server_error].
    destruct (adapt_num _); simpl; [|server_error].
    destruct (adapt_num _); simpl; [|server_error].
    apply summary_ok. split; [eexists|]; reflexivity.
Qed.

Lemma receive_event_summary (req : Scd41.request) (w : world) :
  summary Scd41.POST_api_sensor_log req w (Scd41.receive_event (Scd41.body req) w).
Proof.
  destruct req as [data args]. simpl. unfold Scd41.receive_event.
  destruct (body_cases data) as [Hf|[(Ht & Hd & Hg)|(kv & -> & Ht)]].
  - rewrite Hf. apply summary_client.
  - rewrite Ht. simpl. run. unfold py_get. rewrite Hg. simpl.
    apply summary_raise; [reflexivity|].
    unfold raise_kind. simpl. repeat split; assumption.
  - rewrite Ht. simpl. run.
    destruct (truthy _); simpl; [|apply summary_client].
    destruct (db_fault w); simpl; [server_error|].
    unfold insert_event. run.
    destruct (adapt_text _); simpl; [|server_error].
    destruct (adapt_text _); simpl; [|server_error].
    destruct (adapt_text _); simpl; [|server_error].
    destruct (adapt_int _); simpl; [|server_error].
    apply summary_ok. split; [eexists|]; reflexivity.
Qed.

Lemma receive_batch_summary (req : Scd41.request) (w : world) :
  summary Scd41.POST_api_sensor_batch req w
    (Scd41.receive_batch (Scd41.body req) w).
Proof.
  destruct req as [data args]. simpl.
  destruct (body_cases data) as [Hf|[(Ht & Hd & Hg)|(kv & -> & Ht)]].
  - unfold Scd41.receive_batch. rewrite Hf. apply summary_client.
  - unfold Scd41.receive_batch. rewrite Ht. simpl. run. unfold py_get.
    rewrite Hg. simpl.
    apply summary_raise; [reflexivity|].
    unfold raise_kind. simpl. repeat split; assumption.
  - unfold Scd41.receive_batch. rewrite Ht.
    destruct (py_get (JObj kv) "device") as [device|e] eqn:Ed;
      [|discriminate Ed].
    destruct (py_get_default (JObj kv) "readings" (JArr [])) as [rdgs|e] eqn:Er;
      [|discriminate Er].
    clear Ed Er Ht. run.
    destruct (truthy device); simpl; [|apply summary_client].
    destruct (truthy rdgs) eqn:Hr; simpl; [|apply summary_client].
    change (summary Scd41.POST_api_sensor_batch
              {| Scd41.body := JObj kv; Scd41.args := args |} w
              (batch_section device rdgs w)).
    destruct (batch_section_outcome device rdgs w Hr) as [C|F].
    + destruct C as (rs & values & w1 & rows & _ & Hout & _ & _ & _ & _ & _
                     & _ & Hrd & Hev).
      destruct (batch_section device rdgs w) as [r w']. simpl in *. subst r.
      apply summary_ok. split; [exists rows; exact Hrd|exact Hev].
    + destruct F as (msg & Hout & Hst).
      destruct (batch_section device rdgs w) as [r w']. simpl in *. subst r.
      apply summary_server;
        [exact Hst|left; split; [discriminate|exists msg; reflexivity]].
Qed.

(** Every request ends in one of the four ways of [summary]. *)
Lemma dispatch_summary (ep : Scd41.endpoint) (req : Scd41.request) (w : world) :
  summary ep req w (Scd41.dispatch ep req w).
Proof.
  destruct ep; simpl.
  - apply health_summary.
  - apply receive_single_summary.
  - apply receive_batch_summary.
  - apply receive_event_summary.
  - apply get_readings_summary.
  - apply get_events_summary.
  - apply get_last_calibration_summary.
  - apply get_stats_summary.
Qed.
End Summary.

(* ================================================================= *)
(** ** Invariants of the service *)

Section Invariants.
Context {P : Platform}.

(** X3.  No request removes or alters a stored row.  Whatever the
    endpoint, the request and the outcome, the tables afterwards are
    the tables before with rows added at the end: to [readings] by the
    two reading ingests only, to [sensor_events] by the event ingest
    only, and to neither by the health check and the four queries. *)
Theorem dispatch_append_only (ep : Scd41.endpoint) (req : Scd41.request)
    (w : world) :
  let w' := snd (Scd41.dispatch ep req w) in
  (exists rows, readings (store w') = readings (store w) ++ rows)
  /\ (exists rows, sensor_events (store w') = sensor_events (store w) ++ rows)
  /\ (ep <> Scd41.POST_api_sensor -> ep <> Scd41.POST_api_sensor_batch ->
      readings (store w') = readings (store w))
  /\ (ep <> Scd41.POST_api_sensor_log ->
      sensor_events (store w') = sensor_events (store w)).
Proof.
  intros w'. subst w'.
  assert (Hsame : forall w', store w' = store w ->
            (exists rows, readings (store w') = readings (store w) ++ rows)
            /\ (exists rows,
                  sensor_events (store w') = sensor_events (store w) ++ rows)
            /\ readings (store w') = readings (store w)
            /\ sensor_events (store w') = sensor_events (store w)).
  { intros w' ->. repeat split; try (exists []; rewrite app_nil_r); reflexivity. }
  destruct (dispatch_summary ep req w) as [body w' He|msg|body w' Hs _|e w' Hs _];
    simpl;
    try (destruct (Hsame _ Hs) as (H1 & H2 & H3 & H4); tauto);
    try (destruct (Hsame w eq_refl) as (H1 & H2 & H3 & H4); tauto).
  destruct ep; simpl in He;
    try (destruct (Hsame _ He) as (H1 & H2 & H3 & H4); tauto).
  - destruct He as [[rows Hr] Hev]. repeat split; try congruence.
    + exists rows. exact Hr.
    + exists []. rewrite app_nil_r. exact Hev.
  - destruct He as [[rows Hr] Hev]. repeat split; try congruence.
    + exists rows. exact Hr.
    + exists []. rewrite app_nil_r. exact Hev.
  - destruct He as [[rows Hev] Hr]. repeat split; try congruence.
    + exists []. rewrite app_nil_r. exact Hr.
    + exists rows. exact Hev.
Qed.

(** X4.  A request that is not answered 200 stores nothing: after a
    400, a 500 or an exception that leaves the handler, on any
    endpoint, both tables are as they were. *)
Theorem failure_stores_nothing (ep : Scd41.endpoint) (req : Scd41.request)
    (w : world) :
  not_success (fst (Scd41.dispatch ep req w)) ->
  store (snd (Scd41.dispatch ep req w)) = store w.
Proof.
  intros Hn.
  destruct (dispatch_summary ep req w) as [body w' He|msg|body w' Hs _|e w' Hs _];
    simpl in *; try assumption; try reflexivity.
  exfalso. apply (Hn body). reflexivity.
Qed.

(** X5.  The service answers with three status codes only.  A response
    is a 200, or a 400 whose body is [{error: msg}], or a 500 whose
    body is [{error: msg}] on every endpoint but the health check and
    [{status: "error", database: msg}] on the health check. *)
Theorem status_codes (ep : Scd41.endpoint) (req : Scd41.request) (w : world)
    (body : json) (status : Z) :
  fst (Scd41.dispatch ep req w) = Ok (body, status) ->
  status = 200
  \/ (status = 400 /\ exists msg, body = error_body msg)
  \/ (status = 500 /\ ep <> Scd41.GET_health
      /\ exists msg, body = JObj [("error", JStr msg)])
  \/ (status = 500 /\ ep = Scd41.GET_health
      /\ exists msg,
           body = JObj [("status", JStr "error"); ("database", JStr msg)]).
Proof.
  intros H.
  destruct (dispatch_summary ep req w) as [b w' He|msg|b w' Hs Hb|e w' Hs _];
    simpl in H; inversion H; subst.
  - left. reflexivity.
  - right; left. split; [reflexivity|]. exists msg. reflexivity.
  - right; right. destruct Hb as [[Hne Hb]|[He Hb]].
    + left. split; [reflexivity|]. split; [exact Hne|exact Hb].
    + right. split; [reflexivity|]. split; [exact He|exact Hb].
Qed.

Lemma post_not_dict (ep : Scd41.endpoint) (req : Scd41.request) (w : world) :
  is_post ep = true ->
  truthy (Scd41.body req) = true -> is_dict (Scd41.body req) = false ->
  Scd41.dispatch ep req w = (Raise (no_attribute (Scd41.body req) "get"), w).
Proof.
  intros Hp Ht Hd. destruct req as [data args]. simpl in *.
  destruct (body_cases data) as [Hf|[(_ & _ & Hg)|(kv & -> & _)]];
    [congruence| |discriminate].
  destruct ep; try discriminate; simpl.
  - unfold Scd41.receive_single. rewrite Ht. simpl. run. unfold py_get.
    rewrite Hg. reflexivity.
  - unfold Scd41.receive_batch. rewrite Ht. simpl. run. unfold py_get.
    rewrite Hg. reflexivity.
  - unfold Scd41.receive_event. rewrite Ht. simpl. run. unfold py_get.
    rewrite Hg. reflexivity.
Qed.

(** X6.  An ingestion handler lets an exception out exactly when the
    JSON body is truthy and is not an object (a non-empty list or
    string, a number other than zero, [true]): it is the
    [AttributeError] of [data.get], raised before the guarded section,
    and the world is untouched.  On an object, and on a falsy body, the
    handler always builds a response. *)
Theorem ingestion_raises_iff_not_dict (ep : Scd41.endpoint)
    (req : Scd41.request) (w : world) :
  is_post ep = true ->
  ((exists e, fst (Scd41.dispatch ep req w) = Raise e)
   <-> truthy (Scd41.body req) = true /\ is_dict (Scd41.body req) = false)
  /\ (truthy (Scd41.body req) = true -> is_dict (Scd41.body req) = false ->
      Scd41.dispatch ep req w
      = (Raise (no_attribute (Scd41.body req) "get"), w)).
Proof.
  intros Hp. split; [split|].
  - intros [e He].
    destruct (dispatch_summary ep req w) as [b w' _|msg|b w' _ _|e' w' _ Hk];
      simpl in He; try discriminate.
    unfold raise_kind in Hk. rewrite Hp in Hk. tauto.
  - intros [Ht Hd]. rewrite (post_not_dict ep req w Hp Ht Hd).
    eexists. reflexivity.
  - apply post_not_dict, Hp.
Qed.

(** X7.  The only exceptions that leave the health check or a query
    are those of the parameter conversions: the [ValueError] of [int]
    and the [OverflowError] of the cutoff.  (The health check lets none
    out.) *)
Theorem query_raises_conversion_only (ep : Scd41.endpoint)
    (req : Scd41.request) (w : world) (e : exn) :
  is_post ep = false ->
  fst (Scd41.dispatch ep req w) = Raise e ->
  is_conversion_error e.
Proof.
  intros Hp He.
  destruct (dispatch_summary ep req w) as [b w' _|msg|b w' _ _|e' w' _ Hk];
    simpl in He; try discriminate.
  inversion He; subst. unfold raise_kind in Hk. rewrite Hp in Hk. exact Hk.
Qed.

Lemma cutoff_of_window (h : Z) (w w' : world) (cutoff : datetime) :
  Scd41.cutoff_of h w = (Ok cutoff, w') -> window w h cutoff.
Proof.
  unfold Scd41.cutoff_of, window. run.
  destruct (timedelta_hours h) as [delta|e]; simpl; [|discriminate].
  destruct (datetime_sub (clock (tick w)) delta) as [r|e] eqn:E; simpl;
    [|discriminate].
  intros H. inversion H; subst. exists delta. split; [reflexivity|exact E].
Qed.

Lemma query_no_raise (ep : Scd41.endpoint) (req : Scd41.request) (w : world)
    (h n : Z) (cutoff : datetime) (e : exn) :
  In ep query_endpoints ->
  int_arg (Scd41.args req) "hours" 24 = Ok h ->
  int_arg (Scd41.args req) "limit" 50 = Ok n ->
  window w h cutoff ->
  fst (Scd41.dispatch ep req w) <> Raise e.
Proof.
  intros Hep Hh Hn Hw Hd. pose proof (cutoff_of_ok w h cutoff Hw) as Hc.
  destruct req as [data args]. simpl in *.
  destruct Hep as [<-|[<-|[<-|[<-|[]]]]]; simpl in Hd.
  - unfold Scd41.get_readings in Hd.
    destruct (args_get args "device") as [[|c s]|]; try discriminate.
    run. rewrite Hh in Hd. simpl in Hd. rewrite Hc in Hd. simpl in Hd.
    destruct (db_fault w); simpl in Hd; [discriminate|].
    unfold select_readings in Hd.
    destruct (text_param _ _); discriminate.
  - unfold Scd41.get_events in Hd.
    destruct (args_get args "device") as [[|c s]|]; try discriminate.
    run. rewrite Hh in Hd. simpl in Hd. rewrite Hn in Hd. simpl in Hd.
    rewrite Hc in Hd. simpl in Hd.
    destruct (db_fault w); simpl in Hd; [discriminate|].
    destruct (args_get args "type") as [[|c' s']|]; simpl in Hd;
      unfold select_events, select_events_of_type in Hd; simpl in Hd;
      (destruct (text_param _ _); simpl in Hd; [|discriminate]);
      try (destruct (text_param _ _); simpl in Hd; [|discriminate]);
      destruct (fetch_events _); discriminate.
  - unfold Scd41.get_last_calibration in Hd.
    destruct (args_get args "device") as [[|c s]|]; try discriminate.
    run. destruct (db_fault w); simpl in Hd; [discriminate|].
    unfold select_last_calibration in Hd.
    destruct (text_param _ _); simpl in Hd; [|discriminate].
    destruct (sql_order_by _ _ _); discriminate.
  - unfold Scd41.get_stats in Hd.
    destruct (args_get args "device") as [[|c s]|]; try discriminate.
    run. rewrite Hh in Hd. simpl in Hd. rewrite Hc in Hd. simpl in Hd.
    destruct (db_fault w); simpl in Hd; [discriminate|].
    unfold select_stats in Hd.
    destruct (text_param _ _); simpl in Hd; [|discriminate].
    destruct (0 <? _); discriminate.
Qed.

(** X8.  When the parameters convert, a query always answers.  With an
    integer [hours], an integer [limit] and a representable window,
    each of the four query endpoints builds a response (200, 400 or
    500) and lets no exception out. *)
Theorem query_answers (ep : Scd41.endpoint) (req : Scd41.request) (w : world)
    (h n : Z) (cutoff : datetime) :
  In ep query_endpoints ->
  int_arg (Scd41.args req) "hours" 24 = Ok h ->
  int_arg (Scd41.args req) "limit" 50 = Ok n ->
  window w h cutoff ->
  exists body status,
    fst (Scd41.dispatch ep req w) = Ok (body, status)
    /\ (status = 200 \/ status = 400 \/ status = 500).
Proof.
  intros Hep Hh Hn Hw.
  pose proof (dispatch_summary ep req w) as S.
  pose proof (fun e => query_no_raise ep req w h n cutoff e Hep Hh Hn Hw) as Hr.
  destruct (Scd41.dispatch ep req w) as [r w1]. simpl in *.
  inversion S; subst.
  - exists body, 200. auto.
  - exists (error_body msg), 400. auto.
  - exists body, 500. auto.
  - exfalso. apply (Hr e). reflexivity.
Qed.

(** X9.  A window that cannot be represented makes a query crash.  On
    the three endpoints that take [hours], a request with a device and
    integer parameters whose window is out of range (more than
    999999999 days, or a cutoff outside the years 1 to 9999) raises
    [OverflowError] before the guarded section: the exception leaves
    the handler and the tables are untouched. *)
Theorem window_overflow_escapes (ep : Scd41.endpoint) (req : Scd41.request)
    (w : world) (h n : Z) :
  In ep converting_endpoints ->
  valid_device req ->
  int_arg (Scd41.args req) "hours" 24 = Ok h ->
  int_arg (Scd41.args req) "limit" 50 = Ok n ->
  (forall cutoff, ~ window w h cutoff) ->
  exists msg,
    Scd41.dispatch ep req w = (Raise (OverflowError msg), advance w).
Proof.
  intros Hep (device & Hd & Hne) Hh Hn Hw.
  destruct req as [data args]. simpl in *.
  assert (Hdev : exists c s, args_get args "device" = Some (String c s)).
  { destruct device as [|c s]; [contradiction|]. eauto. }
  destruct Hdev as (c & s & Hdev). clear Hd Hne.
  assert (Hc : exists msg,
             Scd41.cutoff_of h w = (Raise (OverflowError msg), advance w)).
  { destruct (cutoff_of_cases h w) as [[cutoff Ec]|Hc]; [|exact Hc].
    exfalso. apply (Hw cutoff). eapply cutoff_of_window. exact Ec. }
  destruct Hc as [msg Hc]. exists msg.
  destruct Hep as [<-|[<-|[<-|[]]]]; simpl.
  - unfold Scd41.get_readings. rewrite Hdev. run. rewrite Hh. simpl.
    rewrite Hc. reflexivity.
  - unfold Scd41.get_events. rewrite Hdev. run. rewrite Hh. simpl.
    rewrite Hn. simpl. rewrite Hc. reflexivity.
  - unfold Scd41.get_stats. rewrite Hdev. run. rewrite Hh. simpl.
    rewrite Hc. reflexivity.
Qed.
End Invariants.

(* ================================================================= *)
(** ** Ingestion followed by a query *)

Section RoundTrips.
Context {P : Platform}.

(** The three queries on a reachable database that accepts the
    device, once the parameters are converted. *)
Lemma get_readings_eq (args : list (string * string)) (w : world)
    (device : string) (h : Z) (cutoff : datetime) :
  args_get args "device" = Some device -> device <> "" ->
  int_arg args "hours" 24 = Ok h ->
  window w h cutoff ->
  db_fault w = None ->
  reading_device_ok w device ->
  Scd41.get_readings args w
  = (Ok (JArr (map reading_object (matching_readings device cutoff (store w))),
         200), advance w).
Proof.
  intros Hd Hne Hh Hw Hf Hacc.
  destruct (device_given args device Hd Hne) as (c & s & ->).
  unfold reading_device_ok in Hacc.
  unfold Scd41.get_readings. rewrite Hd. run. rewrite Hh. simpl.
  pose proof (cutoff_of_ok w h cutoff Hw) as Hc. run. rewrite Hc. simpl.
  rewrite Hf. simpl. unfold select_readings. simpl. rewrite Hacc. simpl.
  rewrite reading_json_object. reflexivity.
Qed.

Lemma get_stats_eq (args : list (string * string)) (w : world)
    (device : string) (h : Z) (cutoff : datetime) :
  args_get args "device" = Some device -> device <> "" ->
  int_arg args "hours" 24 = Ok h ->
  window w h cutoff ->
  db_fault w = None ->
  reading_device_ok w device ->
  Scd41.get_stats args w
  = (Ok (match filter (in_window device cutoff) (readings (store w)) with
         | [] => Scd41.no_stats
         | r :: rows => Scd41.stats_json (aggregate (r :: rows))
         end, 200), advance w).
Proof.
  intros Hd Hne Hh Hw Hf Hacc.
  destruct (device_given args device Hd Hne) as (c & s & ->).
  unfold reading_device_ok in Hacc.
  unfold Scd41.get_stats. rewrite Hd. run. rewrite Hh. simpl.
  pose proof (cutoff_of_ok w h cutoff Hw) as Hc. run. rewrite Hc. simpl.
  rewrite Hf. simpl. unfold select_stats. simpl. rewrite Hacc. simpl.
  destruct (filter _ _) as [|r rows]; reflexivity.
Qed.

Lemma get_last_calibration_eq (args : list (string * string)) (w : world)
    (device : string) :
  args_get args "device" = Some device -> device <> "" ->
  db_fault w = None ->
  event_device_ok w device ->
  Scd41.get_last_calibration args w
  = (Ok (JObj [("date",
                match sql_order_by ev_created_at true
                        (filter (is_calibration device) (sensor_events (store w)))
                with
                | e :: _ => JStr (isoformat (ev_created_at e))
                | [] => JNull
                end)], 200), w).
Proof.
  intros Hd Hne Hf Hacc.
  destruct (device_given args device Hd Hne) as (c & s & ->).
  unfold event_device_ok in Hacc.
  unfold Scd41.get_last_calibration. rewrite Hd. run. rewrite Hf. simpl.
  unfold select_last_calibration. rewrite Hacc. simpl.
  destruct (sql_order_by _ _ _); reflexivity.
Qed.

(** A device that was stored is accepted again. *)
Lemma stored_reading_device_ok (w : world) (r : Reading) :
  reading_device_ok (after_reading w r) (rd_device r).
Proof.
  apply text_param_stored. simpl. rewrite map_app.
  apply in_or_app. right. left. reflexivity.
Qed.

Lemma stored_event_device_ok (w : world) (e : SensorEvent) :
  event_device_ok (after_event w e) (ev_device e).
Proof.
  apply text_param_stored. simpl. rewrite map_app.
  apply in_or_app. right. left. reflexivity.
Qed.

Lemma row_reading_device_ok (w : world) (r : Reading) :
  In r (readings (store w)) -> reading_device_ok w (rd_device r).
Proof.
  intros H. apply text_param_stored, in_map, H.
Qed.

(** What a 200 of [receive_single] tells. *)
Lemma receive_single_success (data body : json) (w w1 : world) :
  Scd41.receive_single data w = (Ok (body, 200), w1) ->
  exists kv device d c t h,
    data = JObj kv
    /\ assoc "device" kv = Some device /\ truthy device = true
    /\ db_fault w = None
    /\ adapt_text device = Ok d
    /\ adapt_int (get_or kv "co2" JNull) = Ok c
    /\ adapt_num (get_or kv "temp" JNull) = Ok t
    /\ adapt_num (get_or kv "humidity" JNull) = Ok h
    /\ w1 = after_reading w (mkReading d c t h (clock (tick w))).
Proof.
  intros H.
  destruct (body_cases data) as [Hf|[(Ht & _ & Hg)|(kv & -> & Ht)]].
  - unfold Scd41.receive_single in H. rewrite Hf in H. discriminate.
  - unfold Scd41.receive_single in H. rewrite Ht in H. simpl in H.
    run. unfold py_get in H. rewrite Hg in H. discriminate.
  - destruct (assoc "device" kv) as [device|] eqn:Hd.
    + destruct (truthy device) eqn:Htd.
      * destruct (db_fault w) as [msg|] eqn:Hf.
        -- unfold Scd41.receive_single in H. rewrite Ht in H. simpl in H.
           run. rewrite Hd in H. simpl in H. rewrite Htd in H. simpl in H.
           rewrite Hf in H. discriminate.
        -- rewrite (receive_single_dict kv device w Hd Htd Hf) in H.
           destruct (adapt_text device) as [d|e] eqn:E1; [|discriminate].
           destruct (adapt_int _) as [c|e] eqn:E2; [|discriminate].
           destruct (adapt_num (get_or kv "temp" JNull)) as [t|e] eqn:E3;
             [|discriminate].
           destruct (adapt_num (get_or kv "humidity" JNull)) as [h|e] eqn:E4;
             [|discriminate].
           inversion H; subst.
           exists kv, device, d, c, t, h.
           repeat split; first [assumption|reflexivity].
      * unfold Scd41.receive_single in H. rewrite Ht in H. simpl in H.
        run. rewrite Hd in H. simpl in H. rewrite Htd in H. discriminate.
    + unfold Scd41.receive_single in H. rewrite Ht in H. simpl in H.
      run. rewrite Hd in H. discriminate.
Qed.

Lemma receive_event_success (data body : json) (w w1 : world) :
  Scd41.receive_event data w = (Ok (body, 200), w1) ->
  exists kv device d ty m u,
    data = JObj kv
    /\ assoc "device" kv = Some device /\ truthy device = true
    /\ db_fault w = None
    /\ adapt_text device = Ok d
    /\ adapt_text (get_or kv "event_type" (JStr "info")) = Ok ty
    /\ adapt_text (get_or kv "message" (JStr "")) = Ok m
    /\ adapt_int (get_or kv "uptime" JNull) = Ok u
    /\ w1 = after_event w (mkSensorEvent d ty m u (clock (tick w))).
Proof.
  intros H.
  destruct (body_cases data) as [Hf|[(Ht & _ & Hg)|(kv & -> & Ht)]].
  - unfold Scd41.receive_event in H. rewrite Hf in H. discriminate.
  - unfold Scd41.receive_event in H. rewrite Ht in H. simpl in H.
    run. unfold py_get in H. rewrite Hg in H. discriminate.
  - destruct (assoc "device" kv) as [device|] eqn:Hd.
    + destruct (truthy device) eqn:Htd.
      * destruct (db_fault w) as [msg|] eqn:Hf.
        -- unfold Scd41.receive_event in H. rewrite Ht in H. simpl in H.
           run. rewrite Hd in H. simpl in H. rewrite Htd in H. simpl in H.
           rewrite Hf in H. discriminate.
        -- rewrite (receive_event_dict kv device w Hd Htd Hf) in H.
           destruct (adapt_text device) as [d|e] eqn:E1; [|discriminate].
           destruct (adapt_text (get_or kv "event_type" (JStr "info")))
             as [ty|e] eqn:E2; [|discriminate].
           destruct (adapt_text (get_or kv "message" (JStr ""))) as [m|e] eqn:E3;
             [|discriminate].
           destruct (adapt_int _) as [u|e] eqn:E4; [|discriminate].
           inversion H; subst.
           exists kv, device, d, ty, m, u.
           repeat split; first [assumption|reflexivity].
      * unfold Scd41.receive_event in H. rewrite Ht in H. simpl in H.
        run. rewrite Hd in H. simpl in H. rewrite Htd in H. discriminate.
    + unfold Scd41.receive_event in H. rewrite Ht in H. simpl in H.
      run. rewrite Hd in H. discriminate.
Qed.

(** X10.  What is ingested can be read back.  After a single reading
    was answered 200, the stored row carries the clock reading of the
    insertion, and every readings query for its device on the world
    left behind, with a cutoff at or before that instant, returns the
    object of that row among its results. *)
Theorem single_then_readings (data body : json) (w w1 : world) :
  Scd41.receive_single data w = (Ok (body, 200), w1) ->
  exists r,
    w1 = after_reading w r
    /\ rd_created_at r = clock (tick w)
    /\ forall args h cutoff,
         args_get args "device" = Some (rd_device r) -> rd_device r <> "" ->
         int_arg args "hours" 24 = Ok h ->
         window w1 h cutoff ->
         cutoff <= clock (tick w) ->
         exists items,
           fst (Scd41.get_readings args w1) = Ok (JArr items, 200)
           /\ In (reading_object r) items.
Proof.
  intros H.
  destruct (receive_single_success data body w w1 H)
    as (kv & device & d & c & t & h & -> & _ & _ & Hf & _ & _ & _ & _ & ->).
  exists (mkReading d c t h (clock (tick w))).
  split; [reflexivity|]. split; [reflexivity|].
  intros args hh cutoff Hd Hne Hh Hw Hc. simpl in Hd, Hne.
  rewrite (get_readings_eq args _ d hh cutoff Hd Hne Hh Hw Hf
             (stored_reading_device_ok w (mkReading d c t h (clock (tick w))))).
  eexists. split; [reflexivity|].
  apply in_map, sql_order_by_In, filter_In. split.
  - simpl. apply in_or_app. right. left. reflexivity.
  - unfold in_window. simpl. rewrite String.eqb_refl. simpl.
    apply Z.leb_le, Hc.
Qed.

(** X11.  A logged calibration shows in the calibration query.  After
    an event was answered 200 whose stored message contains "calibrat"
    whatever the case, the calibration query for its device on the
    world left behind answers a date that is not null and not older
    than the event; it is the time of the event itself when no stored
    event is newer. *)
Theorem event_then_calibration (data body : json) (w w1 : world) :
  Scd41.receive_event data w = (Ok (body, 200), w1) ->
  exists e,
    w1 = after_event w e
    /\ ev_created_at e = clock (tick w)
    /\ forall args,
         args_get args "device" = Some (ev_device e) -> ev_device e <> "" ->
         contains_ci "calibrat" (ev_message e) ->
         exists t,
           Scd41.get_last_calibration args w1
           = (Ok (JObj [("date", JStr (isoformat t))], 200), w1)
           /\ clock (tick w) <= t
           /\ ((forall e', In e' (sensor_events (store w)) ->
                           ev_created_at e' <= clock (tick w)) ->
               t = clock (tick w)).
Proof.
  intros H.
  destruct (receive_event_success data body w w1 H)
    as (kv & device & d & ty & m & u & -> & _ & _ & Hf & _ & _ & _ & _ & ->).
  remember (mkSensorEvent d ty m u (clock (tick w))) as e eqn:He.
  assert (Ht : ev_created_at e = clock (tick w)) by (rewrite He; reflexivity).
  assert (Hdev : ev_device e = d) by (rewrite He; reflexivity).
  exists e. split; [reflexivity|]. split; [exact Ht|].
  intros args Hd Hne Hcal. rewrite Hdev in Hd, Hne.
  assert (Hacc : event_device_ok (after_event w e) d).
  { rewrite <- Hdev. apply stored_event_device_ok. }
  rewrite (get_last_calibration_eq args (after_event w e) d Hd Hne Hf Hacc).
  assert (Hin : In e (filter (is_calibration d)
                        (sensor_events (store (after_event w e))))).
  { apply filter_In. split.
    - simpl. apply in_or_app. right. left. reflexivity.
    - apply is_calibration_event. split; [exact Hdev|exact Hcal]. }
  destruct (sql_order_by ev_created_at true
              (filter (is_calibration d)
                 (sensor_events (store (after_event w e)))))
    as [|e0 rest] eqn:E.
  - exfalso. apply (sql_order_by_In ev_created_at true) in Hin.
    rewrite E in Hin. exact Hin.
  - destruct (sql_order_by_head _ _ _ _ _ E) as [Hin0 Hmax].
    exists (ev_created_at e0). split; [reflexivity|].
    assert (Hge : clock (tick w) <= ev_created_at e0).
    { destruct (Hmax e Hin) as [Heq|Ho].
      - rewrite <- Heq, Ht. lia.
      - unfold in_order in Ho. rewrite Ht in Ho. exact Ho. }
    split; [exact Hge|].
    intros Hold. apply filter_In in Hin0. destruct Hin0 as [Hin0 _].
    simpl in Hin0. apply in_app_or in Hin0.
    destruct Hin0 as [Hin0|[Heq|[]]].
    + specialize (Hold e0 Hin0). lia.
    + rewrite <- Heq. exact Ht.
Qed.

(** X12.  The stats query counts what the readings query lists.  On
    the same world, reachable and accepting the device as a parameter,
    and for the same device and window, both queries answer 200 and
    the [count] of the stats answer is the number of objects the
    readings query returns. *)
Theorem stats_count_matches_readings (args : list (string * string))
    (w : world) (device : string) (h : Z) (cutoff : datetime) :
  args_get args "device" = Some device -> device <> "" ->
  int_arg args "hours" 24 = Ok h ->
  window w h cutoff ->
  db_fault w = None ->
  reading_device_ok w device ->
  exists items stats,
    fst (Scd41.get_readings args w) = Ok (JArr items, 200)
    /\ fst (Scd41.get_stats args w) = Ok (stats, 200)
    /\ member stats "count" = Some (JInt (Z.of_nat (List.length items))).
Proof.
  intros Hd Hne Hh Hw Hf Hacc.
  rewrite (get_readings_eq args w device h cutoff Hd Hne Hh Hw Hf Hacc).
  rewrite (get_stats_eq args w device h cutoff Hd Hne Hh Hw Hf Hacc).
  do 2 eexists. split; [reflexivity|]. split; [reflexivity|].
  rewrite length_map. unfold matching_readings. rewrite sql_order_by_length.
  destruct (filter _ _); reflexivity.
Qed.
End RoundTrips.

(* ================================================================= *)
(** ** Validation, stored timestamps and null aggregates *)

Section Validation.
Context {P : Platform}.

(** X13.  The order of the checks of the ingestion handlers.  A falsy
    body (null, [{}], [[]], [0], [false], the empty string) is
    answered "No JSON data" by all three; an object without a truthy
    [device] is answered "Missing device name" by all three, by the
    batch handler also when [readings] is missing; an object with a
    device and no truthy [readings] is answered "No readings provided"
    by the batch handler.  Each is a 400 that leaves the world alone. *)
Theorem ingestion_validation (data : json) (w : world) :
  (truthy data = false ->
   Scd41.receive_single data w = (Ok (error_body "No JSON data", 400), w)
   /\ Scd41.receive_batch data w = (Ok (error_body "No JSON data", 400), w)
   /\ Scd41.receive_event data w = (Ok (error_body "No JSON data", 400), w))
  /\ (forall kv,
        data = JObj kv -> kv <> [] ->
        truthy (get_or kv "device" JNull) = false ->
        Scd41.receive_single data w
        = (Ok (error_body "Missing device name", 400), w)
        /\ Scd41.receive_batch data w
           = (Ok (error_body "Missing device name", 400), w)
        /\ Scd41.receive_event data w
           = (Ok (error_body "Missing device name", 400), w))
  /\ (forall kv,
        data = JObj kv ->
        truthy (get_or kv "device" JNull) = true ->
        truthy (get_or kv "readings" (JArr [])) = false ->
        Scd41.receive_batch data w
        = (Ok (error_body "No readings provided", 400), w)).
Proof.
  split; [|split].
  - intros Hf. unfold Scd41.receive_single, Scd41.receive_batch,
      Scd41.receive_event. rewrite Hf. repeat split; reflexivity.
  - intros kv -> Hne Hd.
    assert (Ht : truthy (JObj kv) = true).
    { destruct kv; [contradiction|reflexivity]. }
    unfold Scd41.receive_single, Scd41.receive_batch, Scd41.receive_event.
    rewrite Ht. unfold get_or in Hd. run. rewrite Hd.
    repeat split; reflexivity.
  - intros kv -> Hd Hr.
    assert (Ht : truthy (JObj kv) = true).
    { destruct kv; [discriminate|reflexivity]. }
    unfold Scd41.receive_batch. rewrite Ht. unfold get_or in Hd, Hr. run.
    rewrite Hd, Hr. reflexivity.
Qed.
End Validation.

Section StoredTimestamps.
Context {P : Platform}.

(** [executemany] reads no clock: the timestamps are parameters. *)
Lemma executemany_tick
    (values : list (json * json * json * json * datetime)) (w w' : world) :
  executemany_insert_readings values w = (Ok tt, w') -> tick w' = tick w.
Proof.
  revert w. induction values as [|[[[[d c] t] h] ts] values IH]; intros w; simpl.
  - run. intros E. inversion E. reflexivity.
  - unfold insert_reading. run.
    destruct (adapt_text d); simpl; [|discriminate].
    destruct (adapt_int c); simpl; [|discriminate].
    destruct (adapt_num t); simpl; [|discriminate].
    destruct (adapt_num h); simpl; [|discriminate].
    unfold append_reading. intros E. apply IH in E. exact E.
Qed.

(** X14.  The timestamps a batch stores.  When a batch is answered
    200, the rows appended to [readings] stand in the order of the
    entries of the array, and the row of each entry carries the parsed
    [ts] of the entry when the entry has a non-empty string [ts] that
    [fromisoformat] accepts (after [Z] is replaced by [+00:00]), and a
    reading of the clock made during the request in every other
    case. *)
Theorem receive_batch_rows_timestamps (data body : json) (w w' : world) :
  Scd41.receive_batch data w = (Ok (body, 200), w') ->
  exists rs rows,
    py_get_default data "readings" (JArr []) = Ok (JArr rs)
    /\ readings (store w') = readings (store w) ++ rows
    /\ Forall2 (fun r row => created_at_settled w w' r (rd_created_at row))
         rs rows.
Proof.
  intros H.
  destruct (receive_batch_cases data w)
    as [[msg E]|[[e E]|(device & rdgs & _ & _ & Hr & Htr & E)]];
    rewrite E in H; try discriminate.
  destruct (batch_section_success device rdgs body w w' Htr H)
    as (rs & values & w1 & -> & Ev & Ex).
  pose proof (batch_values_ok_text _ _ _ _ _ Ev) as Htext.
  destruct (batch_values_timestamps device rs w Htext)
    as (values' & w1' & Ev' & Hset).
  rewrite Ev in Ev'. inversion Ev'; subst values' w1'.
  pose proof (batch_values_store device rs w) as [Hs _].
  rewrite Ev in Hs. simpl in Hs.
  destruct (executemany_appends _ _ _ Ex) as (rows & Hrows & Hrd & _ & _).
  pose proof (executemany_tick _ _ _ Ex) as Htick.
  exists rs, rows. split; [exact Hr|]. split; [rewrite Hrd, Hs; reflexivity|].
  eapply Forall2_compose; [|exact Hset|exact Hrows].
  intros r v row Hrv Hvrow.
  destruct v as [[[[d c] t] h] ts]. destruct Hvrow as (_ & _ & _ & _ & Hts).
  unfold timestamp_settled in Hrv. unfold created_at_settled.
  simpl in Hrv. rewrite Hts, Htick. exact Hrv.
Qed.
End StoredTimestamps.

Section NullAggregates.
Context {P : Platform}.

Lemma float_if_truthy_null (x : option Q) :
  null_iff_absent_or_zero x (float_if_truthy x).
Proof.
  split.
  - destruct x as [q|]; simpl.
    + destruct (Qnum q =? 0) eqn:E.
      * split; [|reflexivity]. intros _. right. exists q.
        split; [reflexivity|]. apply Z.eqb_eq in E. unfold Qeq. simpl. lia.
      * split; [discriminate|]. intros [H|(q' & H & Hq)]; [discriminate|].
        inversion H; subst q'. apply Z.eqb_neq in E. exfalso. apply E.
        unfold Qeq in Hq. simpl in Hq. lia.
    + split; [left|]; reflexivity.
  - intros q -> Hq. simpl. destruct (Qnum q =? 0) eqn:E; [|reflexivity].
    exfalso. apply Hq. apply Z.eqb_eq in E. unfold Qeq. simpl. lia.
Qed.

(** X15.  A zero aggregate is answered as null.  In the answer of the
    stats query over a window that holds rows, each average and each
    of the [temp] and [humidity] extremes is null exactly when the
    window has no value of the metric or the aggregate equals zero, and
    is the aggregate as a float otherwise; [co2.min] and [co2.max] are
    the integers as they are, zero included. *)
Theorem get_stats_null_members (args : list (string * string)) (w : world)
    (device : string) (h : Z) (cutoff : datetime) (r0 : Reading) :
  args_get args "device" = Some device -> device <> "" ->
  int_arg args "hours" 24 = Ok h ->
  window w h cutoff ->
  db_fault w = None ->
  In r0 (readings (store w)) -> rd_device r0 = device ->
  cutoff <= rd_created_at r0 ->
  let r := aggregate (filter (in_window device cutoff) (readings (store w))) in
  exists c_avg t_avg t_min t_max h_avg h_min h_max,
    Scd41.get_stats args w
    = (Ok (JObj
             [("count", JInt (count r));
              ("co2",
               JObj [("avg", c_avg);
                     ("min", match min_co2 r with
                             | Some z => JInt z | None => JNull end);
                     ("max", match max_co2 r with
                             | Some z => JInt z | None => JNull end)]);
              ("temp", JObj [("avg", t_avg); ("min", t_min); ("max", t_max)]);
              ("humidity",
               JObj [("avg", h_avg); ("min", h_min); ("max", h_max)])],
           200), advance w)
    /\ 1 <= count r
    /\ null_iff_absent_or_zero (avg_co2 r) c_avg
    /\ null_iff_absent_or_zero (avg_temp r) t_avg
    /\ null_iff_absent_or_zero (min_temp r) t_min
    /\ null_iff_absent_or_zero (max_temp r) t_max
    /\ null_iff_absent_or_zero (avg_humidity r) h_avg
    /\ null_iff_absent_or_zero (min_humidity r) h_min
    /\ null_iff_absent_or_zero (max_humidity r) h_max.
Proof.
  intros Hd Hne Hh Hw Hf Hin Hdev Hcut r.
  assert (Hacc : reading_device_ok w device).
  { rewrite <- Hdev. apply row_reading_device_ok, Hin. }
  rewrite (get_stats_eq args w device h cutoff Hd Hne Hh Hw Hf Hacc).
  assert (Hin' : In r0 (filter (in_window device cutoff) (readings (store w)))).
  { apply filter_In. split; [exact Hin|]. unfold in_window.
    rewrite Hdev, String.eqb_refl. simpl. apply Z.leb_le, Hcut. }
  subst r. destruct (filter (in_window device cutoff) (readings (store w)))
    as [|r1 rows]; [contradiction|].
  exists (float_if_truthy (avg_co2 (aggregate (r1 :: rows)))),
    (float_if_truthy (avg_temp (aggregate (r1 :: rows)))),
    (float_if_truthy (min_temp (aggregate (r1 :: rows)))),
    (float_if_truthy (max_temp (aggregate (r1 :: rows)))),
    (float_if_truthy (avg_humidity (aggregate (r1 :: rows)))),
    (float_if_truthy (min_humidity (aggregate (r1 :: rows)))),
    (float_if_truthy (max_humidity (aggregate (r1 :: rows)))).
  split; [reflexivity|]. split; [simpl; lia|].
  repeat split; apply float_if_truthy_null.
Qed.
End NullAggregates.

(* ================================================================= *)
(** ** More on batches and on the limit of the events query *)

Section BatchRows.
Context {P : Platform}.

(** What a 200 of [receive_batch] tells about the run. *)
Lemma receive_batch_success (data body : json) (w w' : world) :
  Scd41.receive_batch data w = (Ok (body, 200), w') ->
  exists device rs values w1,
    py_get data "device" = Ok device
    /\ py_get_default data "readings" (JArr []) = Ok (JArr rs)
    /\ Scd41.batch_values device rs w = (Ok values, w1)
    /\ executemany_insert_readings values w1 = (Ok tt, w').
Proof.
  intros H.
  destruct (receive_batch_cases data w)
    as [[msg E]|[[e E]|(device & rdgs & Hd & _ & Hr & Htr & E)]];
    rewrite E in H; try discriminate.
  destruct (batch_section_success device rdgs body w w' Htr H)
    as (rs & values & w1 & -> & Ev & Ex).
  exists device, rs, values, w1. auto.
Qed.

(** X16.  What is stored is what was sent, in order.  When a batch is
    answered 200, the rows appended to [readings] correspond one to
    one, in order, to the entries of the array: each entry is an
    object, and its row holds the device of the request and the
    entry's [co2], [temp] and [humidity] as the storage adapts them,
    an absent member being stored as the adaptation of [None]. *)
Theorem receive_batch_rows_fields (data body : json) (w w' : world) :
  Scd41.receive_batch data w = (Ok (body, 200), w') ->
  exists device rs rows,
    py_get data "device" = Ok device
    /\ py_get_default data "readings" (JArr []) = Ok (JArr rs)
    /\ readings (store w') = readings (store w) ++ rows
    /\ Forall2 (entry_stored_as device) rs rows.
Proof.
  intros H.
  destruct (receive_batch_success data body w w' H)
    as (device & rs & values & w1 & Hd & Hr & Ev & Ex).
  pose proof (batch_values_store device rs w) as [Hs _].
  rewrite Ev in Hs. simpl in Hs.
  destruct (executemany_appends _ _ _ Ex) as (rows & Hrows & Hrd & _ & _).
  exists device, rs, rows. split; [exact Hd|]. split; [exact Hr|].
  split; [rewrite Hrd, Hs; reflexivity|].
  eapply Forall2_compose;
    [|exact (batch_values_entries _ _ _ _ _ Ev)|exact Hrows].
  intros r v row (kv & -> & Hv) Hst. rewrite Hv in Hst.
  destruct Hst as (H1 & H2 & H3 & H4 & _).
  exists kv. repeat split; assumption.
Qed.

(** X17.  What a batch needs to succeed.  A batch is answered 200 only
    if [readings] is an array each of whose entries is an object with a
    [ts] that is a string or falsy (absent, null, empty): a single
    entry that is not an object, or whose [ts] is a number, [true], a
    list or an object, makes the whole batch fail. *)
Theorem receive_batch_success_needs (data body : json) (w w' : world) :
  Scd41.receive_batch data w = (Ok (body, 200), w') ->
  exists rs,
    py_get_default data "readings" (JArr []) = Ok (JArr rs)
    /\ Forall (fun r => is_dict r = true /\ ts_is_text r) rs.
Proof.
  intros H.
  destruct (receive_batch_success data body w w' H)
    as (device & rs & values & w1 & _ & Hr & Ev & _).
  exists rs. split; [exact Hr|].
  pose proof (batch_values_ok_text _ _ _ _ _ Ev) as Ht.
  eapply Forall_impl; [|exact Ht].
  intros r Hr'. split; [|exact Hr'].
  destruct Hr' as (ts & Hg & _). destruct r; try discriminate. reflexivity.
Qed.
End BatchRows.

Section EventLimit.
Context {P : Platform}.

Lemma get_events_eq (args : list (string * string)) (w : world)
    (device : string) (h n : Z) (cutoff : datetime) :
  args_get args "device" = Some device -> device <> "" ->
  int_arg args "hours" 24 = Ok h ->
  int_arg args "limit" 50 = Ok n ->
  window w h cutoff ->
  db_fault w = None ->
  event_device_ok w device ->
  event_type_ok w (args_get args "type") ->
  0 <= n <= 9223372036854775807 ->
  Scd41.get_events args w
  = (Ok (JArr (map event_object
                 (firstn (Z.to_nat n)
                    (matching_events device cutoff
                       (effective_type (args_get args "type")) (store w)))),
         200), advance w).
Proof.
  intros Hd Hne Hh Hn Hw Hf Hdev Hty [Hlo Hhi].
  destruct (device_given args device Hd Hne) as (c & s & ->).
  unfold event_device_ok in Hdev. unfold event_type_ok in Hty.
  unfold Scd41.get_events. rewrite Hd. run. rewrite Hh. simpl. rewrite Hn. simpl.
  pose proof (cutoff_of_ok w h cutoff Hw) as Hc. run. rewrite Hc. simpl.
  rewrite Hf.
  assert (Hl : forall rows : list SensorEvent,
            sql_limit n rows = Ok (firstn (Z.to_nat n) rows)).
  { intros rows. unfold sql_limit.
    destruct (n <? 0) eqn:E1; [apply Z.ltb_lt in E1; lia|].
    destruct (9223372036854775807 <? n) eqn:E2; [apply Z.ltb_lt in E2; lia|].
    reflexivity. }
  revert Hty.
  destruct (args_get args "type") as [[|c' s']|]; simpl; intros Hty;
    unfold select_events, select_events_of_type; simpl;
    rewrite Hdev; simpl; rewrite ?Hty; simpl;
    rewrite Hl; simpl; rewrite event_json_object; reflexivity.
Qed.

(** X18.  A larger limit only reaches further back.  Two events
    queries on the same world that differ in [limit] only, with
    [0 <= n <= m], on a reachable database that accepts the device and
    the type, both answer 200; the answer to the smaller limit has
    [min n k] objects where [k] is the number of objects of the larger
    answer, and the [ts] members of the smaller answer are, in order,
    the first [n] of the [ts] members of the larger one.  (Which of
    several events of one instant makes it into the smaller answer is
    the storage's choice.) *)
Theorem get_events_limit_prefix (args1 args2 : list (string * string))
    (w : world) (device : string) (h n m : Z) (cutoff : datetime) :
  args_get args1 "device" = Some device ->
  args_get args2 "device" = Some device -> device <> "" ->
  int_arg args1 "hours" 24 = Ok h -> int_arg args2 "hours" 24 = Ok h ->
  args_get args1 "type" = args_get args2 "type" ->
  int_arg args1 "limit" 50 = Ok n -> int_arg args2 "limit" 50 = Ok m ->
  0 <= n <= m -> m <= 9223372036854775807 ->
  window w h cutoff ->
  db_fault w = None ->
  event_device_ok w device ->
  event_type_ok w (args_get args1 "type") ->
  exists items1 items2,
    fst (Scd41.get_events args1 w) = Ok (JArr items1, 200)
    /\ fst (Scd41.get_events args2 w) = Ok (JArr items2, 200)
    /\ List.length items1 = Nat.min (Z.to_nat n) (List.length items2)
    /\ map (fun o => member o "ts") items1
       = firstn (Z.to_nat n) (map (fun o => member o "ts") items2).
Proof.
  intros Hd1 Hd2 Hne Hh1 Hh2 Hty Hn Hm Hnm Hmax Hw Hf Hdev Hacc.
  rewrite (get_events_eq args1 w device h n cutoff Hd1 Hne Hh1 Hn Hw Hf
             Hdev Hacc ltac:(lia)).
  rewrite Hty in Hacc.
  rewrite (get_events_eq args2 w device h m cutoff Hd2 Hne Hh2 Hm Hw Hf
             Hdev Hacc ltac:(lia)).
  do 2 eexists. split; [reflexivity|]. split; [reflexivity|].
  rewrite Hty.
  assert (E : forall rows : list SensorEvent,
            firstn (Z.to_nat n) rows
            = firstn (Z.to_nat n) (firstn (Z.to_nat m) rows)).
  { intros rows. rewrite firstn_firstn.
    replace (Nat.min (Z.to_nat n) (Z.to_nat m)) with (Z.to_nat n) by lia.
    reflexivity. }
  rewrite E. split.
  - rewrite !length_map. apply length_firstn.
  - rewrite <- !firstn_map. reflexivity.
Qed.
End EventLimit.

(* ================================================================= *)
(** ** The further properties on concrete requests *)

Lemma receive_single_outcome_witness :
  truthy (JStr "office") = true
  /\ Scd41.receive_single (P := Sample.platform) Sample.single_office Sample.empty
     = (Ok (status_ok, 200),
        after_reading Sample.empty
          (mkReading "office" (Some 800) (Some (22 # 1)) (Some (45 # 1))
             (Sample.clock 0))).
Proof.
  split; [reflexivity|].
  destruct (receive_single_outcome (P := Sample.platform)
              [("device", JStr "office"); ("co2", JInt 800);
               ("temp", JFloat (22 # 1)); ("humidity", JFloat (45 # 1))]
              (JStr "office") Sample.empty eq_refl eq_refl)
    as [(d & c & t & h & _ & E1 & E2 & E3 & E4 & E)
       |[(e & _ & _ & E)|(msg & Hf & _)]].
  - inversion E1; inversion E2; inversion E3; inversion E4; subst. exact E.
  - discriminate E.
  - discriminate Hf.
Defined.

Lemma receive_event_outcome_witness :
  truthy (JStr "office") = true
  /\ Scd41.receive_event (P := Sample.platform)
       (JObj [("device", JStr "office"); ("uptime", JInt 12345)]) Sample.empty
     = (Ok (status_ok, 200),
        after_event Sample.empty
          (mkSensorEvent "office" "info" "" (Some 12345) (Sample.clock 0))).
Proof.
  split; [reflexivity|].
  destruct (receive_event_outcome (P := Sample.platform)
              [("device", JStr "office"); ("uptime", JInt 12345)]
              (JStr "office") Sample.empty eq_refl eq_refl)
    as [(d & ty & m & u & _ & E1 & E2 & E3 & E4 & E)
       |[(e & _ & _ & E)|(msg & Hf & _)]].
  - inversion E1; inversion E2; inversion E3; inversion E4; subst. exact E.
  - discriminate E.
  - discriminate Hf.
Defined.

Lemma failure_stores_nothing_witness :
  not_success
    (fst (Scd41.dispatch (P := Sample.platform) Scd41.POST_api_sensor_batch
            (Scd41.mkRequest
               (JObj [("device", JStr "office");
                      ("readings", JArr [JObj [("co2", JInt 700)];
                                         JObj [("co2", JStr "high")]])]) [])
            Sample.office))
  /\ store
       (snd (Scd41.dispatch (P := Sample.platform) Scd41.POST_api_sensor_batch
               (Scd41.mkRequest
                  (JObj [("device", JStr "office");
                         ("readings", JArr [JObj [("co2", JInt 700)];
                                            JObj [("co2", JStr "high")]])]) [])
               Sample.office))
     = store Sample.office.
Proof.
  assert (H : not_success
                (fst (Scd41.dispatch (P := Sample.platform)
                        Scd41.POST_api_sensor_batch
                        (Scd41.mkRequest
                           (JObj [("device", JStr "office");
                                  ("readings",
                                   JArr [JObj [("co2", JInt 700)];
                                         JObj [("co2", JStr "high")]])]) [])
                        Sample.office))).
  { intros body Hb. vm_compute in Hb. discriminate Hb. }
  split; [exact H|].
  apply (failure_stores_nothing (P := Sample.platform)). exact H.
Defined.

Lemma status_codes_witness :
  fst (Scd41.dispatch (P := Sample.platform) Scd41.GET_health
         (Scd41.mkRequest JNull [])
         (mkWorld (mkDb [] []) (Some "connection refused") 0))
  = Ok (JObj [("status", JStr "error"); ("database", JStr "connection refused")],
        500)
  /\ (500 = 200
      \/ (500 = 400
          /\ exists msg,
               JObj [("status", JStr "error");
                     ("database", JStr "connection refused")]
               = error_body msg)
      \/ (500 = 500 /\ Scd41.GET_health <> Scd41.GET_health
          /\ exists msg,
               JObj [("status", JStr "error");
                     ("database", JStr "connection refused")]
               = JObj [("error", JStr msg)])
      \/ (500 = 500 /\ Scd41.GET_health = Scd41.GET_health
          /\ exists msg,
               JObj [("status", JStr "error");
                     ("database", JStr "connection refused")]
               = JObj [("status", JStr "error"); ("database", JStr msg)])).
Proof.
  split; [reflexivity|].
  apply (status_codes (P := Sample.platform) Scd41.GET_health
           (Scd41.mkRequest JNull [])
           (mkWorld (mkDb [] []) (Some "connection refused") 0)).
  reflexivity.
Defined.

Lemma ingestion_raises_iff_not_dict_witness :
  is_post Scd41.POST_api_sensor = true
  /\ Scd41.dispatch (P := Sample.platform) Scd41.POST_api_sensor
       (Scd41.mkRequest (JArr [JInt 1]) []) Sample.empty
     = (Raise (AttributeError "'list' object has no attribute 'get'"),
        Sample.empty).
Proof.
  split; [reflexivity|].
  destruct (ingestion_raises_iff_not_dict (P := Sample.platform)
              Scd41.POST_api_sensor (Scd41.mkRequest (JArr [JInt 1]) [])
              Sample.empty eq_refl) as [_ H].
  exact (H eq_refl eq_refl).
Defined.

Lemma query_raises_conversion_only_witness :
  is_post Scd41.GET_api_sensor_stats = false
  /\ is_conversion_error
       (ValueError "invalid literal for int() with base 10: 'abc'").
Proof.
  split; [reflexivity|].
  apply (query_raises_conversion_only (P := Sample.platform)
           Scd41.GET_api_sensor_stats
           (Scd41.mkRequest JNull [("device", "office"); ("hours", "abc")])
           Sample.empty);
    reflexivity.
Defined.

Lemma query_answers_witness :
  window (P := Sample.platform) Sample.office 24 1768478700000000
  /\ exists body status,
       fst (Scd41.dispatch (P := Sample.platform) Scd41.GET_api_sensor_log
              (Scd41.mkRequest JNull [("device", "office")]) Sample.office)
       = Ok (body, status)
       /\ (status = 200 \/ status = 400 \/ status = 500).
Proof.
  assert (Hw : window (P := Sample.platform) Sample.office 24 1768478700000000).
  { exists 86400000000. split; reflexivity. }
  split; [exact Hw|].
  apply (query_answers (P := Sample.platform) Scd41.GET_api_sensor_log
           (Scd41.mkRequest JNull [("device", "office")]) Sample.office
           24 50 1768478700000000);
    [simpl; tauto|reflexivity|reflexivity|exact Hw].
Defined.

Lemma window_overflow_escapes_witness :
  int_arg [("device", "office"); ("hours", "24000000000")] "hours" 24
  = Ok 24000000000
  /\ exists msg,
       Scd41.dispatch (P := Sample.platform) Scd41.GET_api_sensor
         (Scd41.mkRequest JNull [("device", "office"); ("hours", "24000000000")])
         Sample.office
       = (Raise (OverflowError msg), advance Sample.office).
Proof.
  split; [reflexivity|].
  apply (window_overflow_escapes (P := Sample.platform) Scd41.GET_api_sensor
           (Scd41.mkRequest JNull [("device", "office"); ("hours", "24000000000")])
           Sample.office 24000000000 50).
  - simpl. tauto.
  - exists "office". split; [reflexivity|discriminate].
  - reflexivity.
  - reflexivity.
  - intros cutoff (delta & Hd & _). vm_compute in Hd. discriminate Hd.
Defined.

Lemma single_then_readings_witness :
  exists r,
    snd (Scd41.receive_single (P := Sample.platform) Sample.single_office
           Sample.empty)
    = after_reading Sample.empty r
    /\ rd_created_at r = Sample.clock 0
    /\ exists items,
         fst (Scd41.get_readings (P := Sample.platform) [("device", "office")]
                (after_reading Sample.empty r))
         = Ok (JArr items, 200)
         /\ In (reading_object (P := Sample.platform) r) items.
Proof.
  destruct (single_then_readings (P := Sample.platform) Sample.single_office
              status_ok Sample.empty
              (snd (Scd41.receive_single (P := Sample.platform)
                      Sample.single_office Sample.empty)) eq_refl)
    as (r & Hw1 & Ht & Hq).
  exists r. split; [exact Hw1|]. split; [exact Ht|].
  rewrite <- Hw1.
  assert (Hr : r = mkReading "office" (Some 800) (Some (22 # 1)) (Some (45 # 1))
                     (Sample.clock 0)).
  { unfold after_reading in Hw1. simpl in Hw1. inversion Hw1. reflexivity. }
  apply (Hq [("device", "office")] 24 1768478700001000).
  - rewrite Hr. reflexivity.
  - rewrite Hr. discriminate.
  - reflexivity.
  - exists 86400000000. split; reflexivity.
  - vm_compute. discriminate.
Defined.

Lemma event_then_calibration_witness :
  exists e,
    snd (Scd41.receive_event (P := Sample.platform)
           (JObj [("device", JStr "office");
                  ("message", JStr "Manual Calibration started")])
           Sample.office)
    = after_event Sample.office e
    /\ ev_created_at e = Sample.clock 0
    /\ Scd41.get_last_calibration (P := Sample.platform) [("device", "office")]
         (after_event Sample.office e)
       = (Ok (JObj [("date", JStr "2026-01-16T12:05:00+00:00")], 200),
          after_event Sample.office e).
Proof.
  destruct (event_then_calibration (P := Sample.platform)
              (JObj [("device", JStr "office");
                     ("message", JStr "Manual Calibration started")])
              status_ok Sample.office
              (snd (Scd41.receive_event (P := Sample.platform)
                      (JObj [("device", JStr "office");
                             ("message", JStr "Manual Calibration started")])
                      Sample.office)) eq_refl)
    as (e & Hw1 & Ht & Hq).
  exists e. split; [exact Hw1|]. split; [exact Ht|].
  assert (He : e = mkSensorEvent "office" "info" "Manual Calibration started"
                     None (Sample.clock 0)).
  { unfold after_event in Hw1. simpl in Hw1. inversion Hw1. reflexivity. }
  destruct (Hq [("device", "office")]) as (t & E & _ & Hnew).
  - rewrite He. reflexivity.
  - rewrite He. discriminate.
  - rewrite He. exists "Manual ", "Calibrat", "ion started".
    split; reflexivity.
  - rewrite <- Hw1. rewrite E. rewrite Hnew; [reflexivity|].
    intros e' [<-|[<-|[]]]; vm_compute; discriminate.
Defined.

Lemma stats_count_matches_readings_witness :
  window (P := Sample.platform) Sample.co2_only 24 1768478700000000
  /\ exists items stats,
       fst (Scd41.get_readings (P := Sample.platform) [("device", "office")]
              Sample.co2_only) = Ok (JArr items, 200)
       /\ fst (Scd41.get_stats (P := Sample.platform) [("device", "office")]
                 Sample.co2_only) = Ok (stats, 200)
       /\ member stats "count" = Some (JInt (Z.of_nat (List.length items))).
Proof.
  assert (Hw : window (P := Sample.platform) Sample.co2_only 24 1768478700000000).
  { exists 86400000000. split; reflexivity. }
  split; [exact Hw|].
  apply (stats_count_matches_readings (P := Sample.platform)
           [("device", "office")] Sample.co2_only "office" 24 1768478700000000);
    [reflexivity|discriminate|reflexivity|exact Hw|reflexivity|reflexivity].
Defined.

Lemma ingestion_validation_witness :
  truthy (JObj []) = false
  /\ Scd41.receive_single (P := Sample.platform) (JObj []) Sample.empty
     = (Ok (error_body "No JSON data", 400), Sample.empty)
  /\ Scd41.receive_batch (P := Sample.platform)
       (JObj [("readings", JArr [])]) Sample.empty
     = (Ok (error_body "Missing device name", 400), Sample.empty)
  /\ Scd41.receive_batch (P := Sample.platform)
       (JObj [("device", JStr "office"); ("readings", JArr [])]) Sample.empty
     = (Ok (error_body "No readings provided", 400), Sample.empty).
Proof.
  split; [reflexivity|].
  destruct (ingestion_validation (P := Sample.platform) (JObj []) Sample.empty)
    as [H1 _].
  destruct (ingestion_validation (P := Sample.platform)
              (JObj [("readings", JArr [])]) Sample.empty) as (_ & H2 & _).
  destruct (ingestion_validation (P := Sample.platform)
              (JObj [("device", JStr "office"); ("readings", JArr [])])
              Sample.empty) as (_ & _ & H3).
  split; [apply (H1 eq_refl)|]. split.
  - apply (H2 [("readings", JArr [])] eq_refl); [discriminate|reflexivity].
  - apply (H3 [("device", JStr "office"); ("readings", JArr [])] eq_refl);
      reflexivity.
Defined.

Lemma receive_batch_rows_timestamps_witness :
  exists rs rows,
    py_get_default Sample.batch_office "readings" (JArr []) = Ok (JArr rs)
    /\ [mkReading "office" (Some 700) None None Sample.noon;
        mkReading "office" (Some 710) None None (Sample.clock 0)]
       = readings (store Sample.empty) ++ rows
    /\ Forall2
         (fun r row =>
            created_at_settled (P := Sample.platform) Sample.empty
              (mkWorld
                 (mkDb [mkReading "office" (Some 700) None None Sample.noon;
                        mkReading "office" (Some 710) None None (Sample.clock 0)]
                       [])
                 None 1)
              r (rd_created_at row))
         rs rows.
Proof.
  apply (receive_batch_rows_timestamps (P := Sample.platform) Sample.batch_office
           (ok_stored 2) Sample.empty
           (mkWorld
              (mkDb [mkReading "office" (Some 700) None None Sample.noon;
                     mkReading "office" (Some 710) None None (Sample.clock 0)]
                    [])
              None 1)).
  reflexivity.
Defined.

Lemma get_stats_null_members_witness :
  window (P := Sample.platform) Sample.freezing 24 1768478700000000
  /\ exists c_avg t_avg t_min t_max h_avg h_min h_max,
       Scd41.get_stats (P := Sample.platform) [("device", "shed")] Sample.freezing
       = (Ok (JObj
                [("count", JInt 1);
                 ("co2", JObj [("avg", c_avg); ("min", JInt 420);
                               ("max", JInt 420)]);
                 ("temp", JObj [("avg", t_avg); ("min", t_min); ("max", t_max)]);
                 ("humidity",
                  JObj [("avg", h_avg); ("min", h_min); ("max", h_max)])],
              200), advance Sample.freezing)
       /\ t_avg = JNull /\ t_min = JNull /\ t_max = JNull.
Proof.
  assert (Hw : window (P := Sample.platform) Sample.freezing 24 1768478700000000).
  { exists 86400000000. split; reflexivity. }
  split; [exact Hw|].
  destruct (get_stats_null_members (P := Sample.platform) [("device", "shed")]
              Sample.freezing "shed" 24 1768478700000000
              (mkReading "shed" (Some 420) (Some (0 # 1)) (Some (80 # 1))
                 Sample.noon))
    as (c_avg & t_avg & t_min & t_max & h_avg & h_min & h_max & E & _ & _
        & [Ha _] & [Hmin _] & [Hmax _] & _);
    [reflexivity|discriminate|reflexivity|exact Hw|reflexivity
    |left; reflexivity|reflexivity|vm_compute; discriminate|].
  exists c_avg, t_avg, t_min, t_max, h_avg, h_min, h_max.
  split; [exact E|].
  assert (Hz : forall x : option Q,
            x = Some (0 # 1)%Q ->
            x = None \/ exists q, x = Some q /\ (q == 0)%Q).
  { intros x ->. right. exists (0 # 1)%Q. split; reflexivity. }
  split; [apply Ha, Hz; reflexivity|].
  split; [apply Hmin, Hz; reflexivity|apply Hmax, Hz; reflexivity].
Defined.

Lemma receive_batch_rows_fields_witness :
  exists device rs rows,
    py_get Sample.batch_office "device" = Ok device
    /\ py_get_default Sample.batch_office "readings" (JArr []) = Ok (JArr rs)
    /\ [mkReading "office" (Some 700) None None Sample.noon;
        mkReading "office" (Some 710) None None (Sample.clock 0)]
       = readings (store Sample.empty) ++ rows
    /\ Forall2 (entry_stored_as (P := Sample.platform) device) rs rows.
Proof.
  apply (receive_batch_rows_fields (P := Sample.platform) Sample.batch_office
           (ok_stored 2) Sample.empty
           (mkWorld
              (mkDb [mkReading "office" (Some 700) None None Sample.noon;
                     mkReading "office" (Some 710) None None (Sample.clock 0)]
                    [])
              None 1)).
  reflexivity.
Defined.

Lemma receive_batch_success_needs_witness :
  exists rs,
    py_get_default Sample.batch_office "readings" (JArr []) = Ok (JArr rs)
    /\ Forall (fun r => is_dict r = true /\ ts_is_text r) rs.
Proof.
  apply (receive_batch_success_needs (P := Sample.platform) Sample.batch_office
           (ok_stored 2) Sample.empty
           (mkWorld
              (mkDb [mkReading "office" (Some 700) None None Sample.noon;
                     mkReading "office" (Some 710) None None (Sample.clock 0)]
                    [])
              None 1)).
  reflexivity.
Defined.

Lemma get_events_limit_prefix_witness :
  window (P := Sample.platform) Sample.office 24 1768478700000000
  /\ exists items1 items2,
       fst (Scd41.get_events (P := Sample.platform)
              [("device", "office"); ("limit", "1")] Sample.office)
       = Ok (JArr items1, 200)
       /\ fst (Scd41.get_events (P := Sample.platform)
                 [("device", "office"); ("limit", "2")] Sample.office)
          = Ok (JArr items2, 200)
       /\ List.length items1 = Nat.min (Z.to_nat 1) (List.length items2)
       /\ map (fun o => member o "ts") items1
          = firstn (Z.to_nat 1) (map (fun o => member o "ts") items2).
Proof.
  assert (Hw : window (P := Sample.platform) Sample.office 24 1768478700000000).
  { exists 86400000000. split; reflexivity. }
  split; [exact Hw|].
  apply (get_events_limit_prefix (P := Sample.platform)
           [("device", "office"); ("limit", "1")]
           [("device", "office"); ("limit", "2")]
           Sample.office "office" 24 1 2 1768478700000000);
    try reflexivity; try discriminate; try lia; exact Hw.
Defined.
